(** * Analise-Dados-Bolsa: the quote loaders and the snapshot store

    A shallow embedding of [src/data_loader.py] ([RobustDataLoader]),
    of the loader and the store of [src/app.py] ([DataLoader],
    [Database]) and of [src/database.py] ([Database]).

    Modelling choices, valid for the whole development:
    - The numbers are modelled twice.  The loops, the store, the registry
      and the cards take them as exact rationals ([Q]): the provider hands
      out finite numbers only, the one operation that leaves them is the
      division by a zero prior price in the day change (numpy yields [inf]
      or [nan] there and raises nothing; the type [float64] keeps that
      outcome apart), and [round(x, 2)] is rounding to the nearest
      hundredth, ties to even.  What is proved there is about signs,
      constants, the shape of a record and the content of the store.
    - The value of a computed field is a matter of how doubles round.  The
      module [Binary64] embeds the arithmetic of the two loaders on IEEE
      binary64, with [round(x, 2)] of a numpy double as
      [rint(x * 100) / 100]; the statements on the yield, the day change
      and the rounding of a record are made there.
    - An exception is a value [Raise e] of the type [outcome]; [e] stands
      for an instance of Python's [Exception].  [print] and [time.sleep]
      are logging and pacing and are left out.
    - The provider (yfinance) is a parameter: a [world] says, per symbol,
      what each call of the library returns or raises. *)

From Stdlib Require Import QArith Qround Lqa.
From stdpp Require Import gmap strings list sorting.
From stdpp Require Import pretty.
From Stdlib Require Import Floats.

Set Warnings "-inexact-float".

Open Scope Q_scope.

(** ** Numbers *)

Module Num.

(** numpy's [rint]: the nearest integer, ties to the even one. *)
Definition rint (q : Q) : Z :=
  let f := Qfloor q in
  let r := q - inject_Z f in
  match Qcompare r (1 # 2) with
  | Lt => f
  | Gt => (f + 1)%Z
  | Eq => if Z.even f then f else (f + 1)%Z
  end.

(** [round(x, 2)]. *)
Definition round2 (q : Q) : Q := inject_Z (rint (q * 100)) / 100.

(** A value that carries at most two decimals. *)
Definition two_decimals (q : Q) : Prop := exists z : Z, q == inject_Z z / 100.

Definition is_two_decimals (q : Q) : bool := Qeq_bool (round2 q) q.

(** The result of an arithmetic expression that may divide by zero. *)
Inductive float64 : Type :=
| Finite (q : Q)
| NonFinite.

Definition f64_div (a b : Q) : float64 :=
  if Qeq_bool b 0 then NonFinite else Finite (a / b).

Definition f64_map (f : Q -> Q) (x : float64) : float64 :=
  match x with
  | Finite q => Finite (f q)
  | NonFinite => NonFinite
  end.

(** [Series.tail(n)]: the last [n] entries. *)
Definition tail {A} (n : nat) (l : list A) : list A :=
  drop (length l - n) l.

Definition ltb (a b : Q) : bool :=
  match Qcompare a b with
  | Lt => true
  | _ => false
  end.

Definition sum (l : list Q) : Q := foldr Qplus 0 l.

(** [Series.mean()] of a series that is not empty. *)
Definition mean (l : list Q) : Q := sum l / inject_Z (Z.of_nat (length l)).

End Num.

(** ** Strings *)

Module Str.

(** [needle in hay]. *)
Fixpoint contains (needle hay : string) : bool :=
  String.prefix needle hay
  || match hay with
     | EmptyString => false
     | String _ hay' => contains needle hay'
     end.

(** [replace_from old new skip s]: the scan of [str.replace]; [skip]
    counts the characters of a match still to be passed over. *)
Fixpoint replace_from (old new : string) (skip : nat) (s : string) : string :=
  match s with
  | EmptyString => EmptyString
  | String c s' =>
      match skip with
      | S k => replace_from old new k s'
      | O =>
          if String.prefix old s
          then new +:+ replace_from old new (String.length old - 1) s'
          else String c (replace_from old new 0 s')
      end
  end.

(** [s.replace(old, new)] for a pattern [old] that is not empty, the
    only use the loaders make of it. *)
Definition replace (old new s : string) : string := replace_from old new 0 s.

End Str.

(** ** Exceptions *)

Inductive outcome (A : Type) : Type :=
| Ret (a : A)
| Raise (e : string).
Arguments Ret {A} a.
Arguments Raise {A} e.

#[export] Instance outcome_ret : MRet outcome := @Ret.
#[export] Instance outcome_bind : MBind outcome := fun A B f m =>
  match m with
  | Ret a => f a
  | Raise e => Raise e
  end.

(** [try: body / except Exception as e: handler e]. *)
Definition try_except {A} (body : outcome A) (handler : string -> outcome A)
  : outcome A :=
  match body with
  | Ret a => Ret a
  | Raise e => handler e
  end.

(** ** The provider *)

(** One price bar of [ticker.history]. *)
Record bar : Type := { bar_open : Q; bar_close : Q }.

(** The two keys of [ticker.info] the loaders read. *)
Record info_dict : Type := { longName : option string; sector : option string }.

(** [history] is the one call of [ticker.history] the loader at hand
    makes: [period="2d"] in [data_loader.py], [period="1d"] in [app.py].
    Nothing below relates the bars one loader reads to the bars the other
    reads. *)
Record ticker : Type := {
  history : outcome (list bar);
  info : outcome info_dict;
  dividends : outcome (list Q)
}.

(** [now s] is the reading of the clock when the record of [s] is built: a
    cycle fetches each symbol of the registry once. *)
Record world : Type := {
  new_session : string -> outcome unit;   (* requests.Session() *)
  set_session : string -> outcome unit;   (* yf.set_session(session) *)
  Ticker : string -> ticker;              (* yf.Ticker(simbolo) *)
  now : string -> Z                       (* datetime.now() *)
}.

(** ** The quote record *)

Record ativo : Type := {
  simbolo : string;
  nome : string;
  tipo : string;
  preco_atual : Q;
  dividend_yield : Q;
  ultimo_dividendo : Q;
  frequencia_pagamento : string;
  setor : string;
  variacao_dia : Num.float64;
  atualizado_em : Z
}.

(** ** [src/data_loader.py]: class [RobustDataLoader] *)

Module RobustDataLoader.

(** [self.ativos_monitorados]: a dict, walked in insertion order. *)
Definition ativos_monitorados : list (string * list string) :=
  [ ("FII", ["MXRF11.SA"; "HGLG11.SA"; "KNRI11.SA"; "VISC11.SA"; "RBRP11.SA"; "SDIL11.SA"]);
    ("ETF", ["BOVA11.SA"; "DIVO11.SA"; "SMAL11.SA"; "IVVB11.SA"]);
    ("ACAO", ["VALE3.SA"; "PETR4.SA"; "BBAS3.SA"; "ITUB4.SA"; "TAEE11.SA"]) ]%string.

(** [self.nomes_fallback]. *)
Definition nomes_fallback : gmap string string :=
  list_to_map
    [ ("VALE3.SA", "Vale SA"); ("PETR4.SA", "Petrobras");
      ("BBAS3.SA", "Banco do Brasil"); ("ITUB4.SA", "Itaú Unibanco");
      ("TAEE11.SA", "Taesa"); ("MXRF11.SA", "Maxi Renda FII");
      ("HGLG11.SA", "CSHG Logística"); ("KNRI11.SA", "Kinea Renda Imobiliária");
      ("VISC11.SA", "Vinci Shopping Centers"); ("RBRP11.SA", "RBR Properties");
      ("SDIL11.SA", "SDI Dividendos"); ("BOVA11.SA", "ETF Ibovespa");
      ("DIVO11.SA", "ETF Dividendos"); ("SMAL11.SA", "ETF Small Caps");
      ("IVVB11.SA", "ETF S&P 500") ]%string.

(** [mock_prices] of [_get_mock_price]. *)
Definition mock_prices : gmap string Q :=
  list_to_map
    [ ("VALE3.SA", 68.90); ("PETR4.SA", 37.50); ("BBAS3.SA", 57.80);
      ("ITUB4.SA", 33.45); ("TAEE11.SA", 41.20); ("MXRF11.SA", 10.25);
      ("HGLG11.SA", 158.30); ("KNRI11.SA", 134.50); ("VISC11.SA", 94.80);
      ("RBRP11.SA", 86.90); ("SDIL11.SA", 106.75); ("BOVA11.SA", 115.40);
      ("DIVO11.SA", 98.60); ("SMAL11.SA", 52.30); ("IVVB11.SA", 245.80) ]%string.

Definition _get_mock_price (simbolo : string) : Q :=
  default 10.0 (mock_prices !! simbolo).

(** [self.nomes_fallback.get(simbolo, simbolo)]. *)
Definition nome_fallback (simbolo : string) : string :=
  default simbolo (nomes_fallback !! simbolo).

(** [next((k for k, v in self.ativos_monitorados.items() if simbolo in v), 'OUTRO')]. *)
Fixpoint tipo_de (items : list (string * list string)) (simbolo : string) : string :=
  match items with
  | [] => "OUTRO"
  | (k, v) :: items' =>
      if bool_decide (simbolo ∈ v) then k else tipo_de items' simbolo
  end.

Definition _get_frequencia_pagamento (simbolo : string) : string :=
  if Str.contains "11" simbolo
  then (if Str.contains "FII" simbolo then "Mensal" else "Trimestral")
  else "Trimestral/Semestral".

Definition _safe_dividend_calc (t : ticker) (current_price : Q) : Q :=
  match dividends t with
  | Ret ds =>
      if bool_decide (0 < length ds)%nat && Num.ltb 0 current_price
      then
        let avg_dividend := Num.mean (Num.tail 4 ds) in
        (avg_dividend * 12 / current_price) * 100
      else 0.0
  | Raise _ => 0.0
  end.

Definition _safe_last_dividend (t : ticker) : Q :=
  match dividends t with
  | Ret ds => default 0.0 (last ds)
  | Raise _ => 0.0
  end.

Definition _get_yfinance_data (w : world) (simbolo : string)
  : outcome (option ativo) :=
  try_except
    (_ ← set_session w simbolo;
     let t := Ticker w simbolo in
     hist ← history t;
     match hist with
     | [] => Ret None
     | b0 :: _ =>
         let preco_atual := bar_close (default b0 (last hist)) in
         let preco_anterior :=
           if bool_decide (1 < length hist)%nat
           then bar_open (default b0 (last hist))
           else bar_close b0 in
         let variacao :=
           Num.f64_map (fun x => x * 100)
             (Num.f64_div (preco_atual - preco_anterior) preco_anterior) in
         let '(nome_, setor_) :=
           match info t with
           | Ret i => (default (nome_fallback simbolo) (longName i),
                       default "N/A"%string (sector i))
           | Raise _ => (nome_fallback simbolo, "N/A"%string)
           end in
         let dividend_yield_ := _safe_dividend_calc t preco_atual in
         let ultimo_dividendo_ := _safe_last_dividend t in
         Ret (Some {|
           simbolo := Str.replace ".SA" "" simbolo;
           nome := nome_;
           tipo := tipo_de ativos_monitorados simbolo;
           preco_atual := Num.round2 preco_atual;
           dividend_yield := Num.round2 dividend_yield_;
           ultimo_dividendo := Num.round2 ultimo_dividendo_;
           frequencia_pagamento := _get_frequencia_pagamento simbolo;
           setor := setor_;
           variacao_dia := Num.f64_map Num.round2 variacao;
           atualizado_em := now w simbolo
         |})
     end)
    (fun _ => Ret None).

Definition _get_fallback_data (w : world) (simbolo : string)
  : outcome (option ativo) :=
  try_except
    (let preco_mock := _get_mock_price simbolo in
     Ret (Some {|
       simbolo := Str.replace ".SA" "" simbolo;
       nome := nome_fallback simbolo;
       tipo := tipo_de ativos_monitorados simbolo;
       preco_atual := preco_mock;
       dividend_yield := 6.5;
       ultimo_dividendo := 0.50;
       frequencia_pagamento := _get_frequencia_pagamento simbolo;
       setor := "N/A";
       variacao_dia := Num.Finite 0.0;
       atualizado_em := now w simbolo
     |}))
    (fun _ => Ret None).

(** Lines 52 to 56 of [get_ativos_info]: the provider first, the static
    data when the provider gave nothing. *)
Definition buscar_dados (w : world) (simbolo : string) : outcome (option ativo) :=
  dados ← _get_yfinance_data w simbolo;
  match dados with
  | None => _get_fallback_data w simbolo
  | Some _ => Ret dados
  end.

(** The body of the [try] of [get_ativos_info], for one symbol. *)
Definition corpo (w : world) (simbolo : string) (ativos : list ativo)
  : outcome (list ativo) :=
  _ ← new_session w simbolo;
  dados ← buscar_dados w simbolo;
  match dados with
  | Some d => Ret (ativos ++ [d])
  | None => Ret ativos
  end.

(** [for simbolo in lista_ativos: try: ... except Exception: continue]. *)
Fixpoint para_simbolos (w : world) (lista_ativos : list string)
    (ativos : list ativo) : outcome (list ativo) :=
  match lista_ativos with
  | [] => Ret ativos
  | simbolo :: resto =>
      ativos' ← try_except (corpo w simbolo ativos) (fun _ => Ret ativos);
      para_simbolos w resto ativos'
  end.

(** [for tipo, lista_ativos in self.ativos_monitorados.items(): ...]. *)
Fixpoint para_tipos (w : world) (items : list (string * list string))
    (ativos : list ativo) : outcome (list ativo) :=
  match items with
  | [] => Ret ativos
  | (_, lista_ativos) :: items' =>
      ativos' ← para_simbolos w lista_ativos ativos;
      para_tipos w items' ativos'
  end.

Definition get_ativos_info (w : world) : outcome (list ativo) :=
  para_tipos w ativos_monitorados [].

End RobustDataLoader.

(** ** [src/app.py]: class [DataLoader] *)

Module DataLoader.

Definition ativos_monitorados : list (string * list string) :=
  [ ("FII", ["MXRF11.SA"; "HGLG11.SA"; "KNRI11.SA"; "VISC11.SA"; "RBRP11.SA"; "SDIL11.SA"]);
    ("ETF", ["BOVA11.SA"; "DIVO11.SA"; "SMAL11.SA"; "IVVB11.SA"]);
    ("ACAO", ["VALE3.SA"; "PETR4.SA"; "BBAS3.SA"; "ITUB4.SA"; "TAEE11.SA"; "WEGE3.SA"]) ]%string.

Definition _estimate_dividend_yield (t : ticker) (current_price : Q) : Q :=
  match dividends t with
  | Ret ds =>
      if bool_decide (0 < length ds)%nat && Num.ltb 0 current_price
      then
        let avg_dividend := Num.mean (Num.tail 4 ds) in
        (avg_dividend * 12 / current_price) * 100
      else 0.0
  | Raise _ => 0.0
  end.

Definition _get_ultimo_dividendo (t : ticker) : Q :=
  match dividends t with
  | Ret ds => default 0.0 (last ds)
  | Raise _ => 0.0
  end.

(** The dict [frequencias]. *)
Definition frequencias : gmap string string :=
  list_to_map
    [ ("FII", "Mensal"); ("ETF", "Trimestral");
      ("ACAO", "Trimestral/Semestral") ]%string.

Definition _get_frequencia_pagamento (tipo : string) : string :=
  default "N/A"%string (frequencias !! tipo).

(** The body of the [try] of [get_ativos_info], for one symbol. *)
Definition corpo (w : world) (tipo_ simbolo_ : string) (ativos : list ativo)
  : outcome (list ativo) :=
  let t := Ticker w simbolo_ in
  i ← info t;
  hist ← history t;
  match hist with
  | [] => Ret ativos
  | b0 :: _ =>
      let preco_atual_ := bar_close (default b0 (last hist)) in
      let preco_anterior :=
        if bool_decide (1 < length hist)%nat
        then bar_open (default b0 (last hist))
        else preco_atual_ in
      let variacao :=
        Num.f64_map (fun x => x * 100)
          (Num.f64_div (preco_atual_ - preco_anterior) preco_anterior) in
      let dividend_yield_ := _estimate_dividend_yield t preco_atual_ in
      let ultimo_dividendo_ := _get_ultimo_dividendo t in
      Ret (ativos ++ [ {|
        simbolo := Str.replace ".SA" "" simbolo_;
        nome := default simbolo_ (longName i);
        tipo := tipo_;
        preco_atual := preco_atual_;
        dividend_yield := dividend_yield_;
        ultimo_dividendo := ultimo_dividendo_;
        frequencia_pagamento := _get_frequencia_pagamento tipo_;
        setor := default "N/A"%string (sector i);
        variacao_dia := variacao;
        atualizado_em := now w simbolo_
      |} ])
  end.

Fixpoint para_simbolos (w : world) (tipo_ : string) (lista_ativos : list string)
    (ativos : list ativo) : outcome (list ativo) :=
  match lista_ativos with
  | [] => Ret ativos
  | simbolo_ :: resto =>
      ativos' ← try_except (corpo w tipo_ simbolo_ ativos) (fun _ => Ret ativos);
      para_simbolos w tipo_ resto ativos'
  end.

Fixpoint para_tipos (w : world) (items : list (string * list string))
    (ativos : list ativo) : outcome (list ativo) :=
  match items with
  | [] => Ret ativos
  | (tipo_, lista_ativos) :: items' =>
      ativos' ← para_simbolos w tipo_ lista_ativos ativos;
      para_tipos w items' ativos'
  end.

Definition get_ativos_info (w : world) : outcome (list ativo) :=
  para_tipos w ativos_monitorados [].

End DataLoader.

(** ** [src/database.py] and [src/app.py]: class [Database]

    The two classes run the same statements on the table [ativos]; the one
    of [database.py] reads attributes of an [Ativo], the one of [app.py]
    keys of a dict. *)

Module Database.

(** A row of [ativos]: the [INTEGER PRIMARY KEY AUTOINCREMENT] and the
    ten columns of the record. *)
Record linha : Type := { id : Z; dados : ativo }.

(** The table, in insertion order, and the counter SQLite keeps for
    [AUTOINCREMENT] (the largest [id] ever handed out). *)
Record db : Type := { ativos : list linha; sequencia : Z }.

(** [_init_db] on a fresh file. *)
Definition _init_db : db := {| ativos := []; sequencia := 0 |}.

Definition maior_id (t : list linha) : Z := foldr (fun l m => Z.max (id l) m) 0%Z t.

(** [INSERT OR REPLACE INTO ativos (simbolo, ...) VALUES (...)]: the rows
    that clash on [simbolo TEXT UNIQUE] are deleted, then the row is
    inserted under a fresh [id]. *)
Definition insert_or_replace (d : db) (a : ativo) : db :=
  let novo := (Z.max (sequencia d) (maior_id (ativos d)) + 1)%Z in
  let restantes :=
    filter (fun l => simbolo (dados l) ≠ simbolo a) (ativos d) in
  {| ativos := restantes ++ [ {| id := novo; dados := a |} ];
     sequencia := novo |}.

Definition salvar_ativos (d : db) (lista : list ativo) : db :=
  foldl insert_or_replace d lista.

(** [ORDER BY dividend_yield DESC]. *)
Definition dy_desc (x y : linha) : Prop :=
  dividend_yield (dados y) <= dividend_yield (dados x).

#[export] Instance dy_desc_dec x y : Decision (dy_desc x y).
Proof.
  unfold dy_desc.
  destruct (Qlt_le_dec (dividend_yield (dados x)) (dividend_yield (dados y))) as [H | H].
  - right. apply Qlt_not_le, H.
  - left. exact H.
Defined.

(** [SELECT * FROM ativos ORDER BY dividend_yield DESC]. *)
Definition carregar_ativos (d : db) : list linha :=
  merge_sort dy_desc (ativos d).

(** The rows stored for a symbol. *)
Definition linhas_de (s : string) (d : db) : list linha :=
  filter (fun l => simbolo (dados l) = s) (ativos d).

End Database.

(** ** Sample providers and records *)

Module Exemplos.

(** A ticker the provider knows nothing about. *)
Definition ticker_vazio : ticker :=
  {| history := Ret []; info := Raise "no info"; dividends := Ret [] |}.

Definition ticker_de (bars : list bar) (divs : list Q) : ticker :=
  {| history := Ret bars; info := Raise "no info"; dividends := Ret divs |}.

Definition mundo (t : string -> ticker) : world :=
  {| new_session := fun _ => Ret ();
     set_session := fun _ => Ret ();
     Ticker := t;
     now := fun _ => 0%Z |}.

(** The provider returns no price bar for any symbol. *)
Definition mundo_vazio : world := mundo (fun _ => ticker_vazio).

(** Two sessions of VALE3.SA, the last one opening at 3 and closing at 4;
    five dividends of 1. *)
Definition mundo_vale : world :=
  mundo (fun s =>
    if String.eqb s "VALE3.SA"
    then ticker_de [ {| bar_open := 3; bar_close := 3 |};
                     {| bar_open := 3; bar_close := 4 |} ] [1; 1; 1; 1; 1]
    else ticker_vazio).


(** [requests.Session()] raises for HGLG11.SA, and the provider raises on
    the metadata and on the prices of PETR4.SA. *)
Definition mundo_falhas : world :=
  {| new_session := fun s =>
       if String.eqb s "HGLG11.SA" then Raise "session" else Ret ();
     set_session := fun _ => Ret ();
     Ticker := fun s =>
       if String.eqb s "PETR4.SA"
       then {| history := Raise "timeout"; info := Raise "timeout";
               dividends := Raise "timeout" |}
       else ticker_vazio;
     now := fun _ => 0%Z |}.

Definition registro (s : string) (preco dy : Q) : ativo :=
  {| simbolo := s; nome := s; tipo := "ACAO";
     preco_atual := preco; dividend_yield := dy; ultimo_dividendo := 0.50;
     frequencia_pagamento := "Trimestral/Semestral"; setor := "N/A";
     variacao_dia := Num.Finite 0.0; atualizado_em := 0%Z |}.

(** A store that holds one row for PETR4 and one for VALE3. *)
Definition loja : Database.db :=
  Database.salvar_ativos Database._init_db
    [registro "PETR4" 37.50 6.5; registro "VALE3" 68.90 7.1].

End Exemplos.

(** ** The registry as a list, and the outcome of a call *)

Module Registro.

(** The symbols of a registry, in the order the loops visit them. *)
Definition simbolos (items : list (string * list string)) : list string :=
  concat (snd <$> items).

(** The pairs (category, symbol), in the order the loops visit them. *)
Definition pares (items : list (string * list string)) : list (string * string) :=
  concat ((fun kv : string * list string => pair (fst kv) <$> snd kv) <$> items).

End Registro.

(** Whether a call returned. *)
Definition retornou {A} (o : outcome A) : bool :=
  match o with
  | Ret _ => true
  | Raise _ => false
  end.

(** Whether the provider gives the loader of [app.py] what it needs for a
    record: the metadata and at least one price bar. *)
Definition tem_dados (w : world) (s : string) : bool :=
  match info (Ticker w s), history (Ticker w s) with
  | Ret _, Ret (_ :: _) => true
  | _, _ => false
  end.

(** ** [src/app.py]: the callbacks *)

Module App.

(** [atualizar_dados]: one cycle; [d] is the file of the store before the
    cycle.  The result is the store after the cycle and the rows the
    callback hands to the page, [df.to_dict('records')]. *)
Definition atualizar_dados (w : world) (d : Database.db)
  : outcome (Database.db * list Database.linha) :=
  ativos ← DataLoader.get_ativos_info w;
  let d' := Database.salvar_ativos d ativos in
  let df := Database.carregar_ativos d' in
  Ret (d', df).

(** The four texts [atualizar_dashboard] computes. *)
Record metricas : Type := {
  dy_medio : string;
  total_ativos : string;
  total_fiis : string;
  melhor_dy : string
}.

(** [Series.max()] of a series that is not empty. *)
Definition maximo (x : Q) (l : list Q) : Q :=
  foldl (fun m y => if Qle_bool m y then y else m) x l.

Section Dashboard.

(** Python's [f"{x:.2f}"], left as a parameter. *)
Variable fmt2 : Q -> string.

(** [atualizar_dashboard(dados, filtro_tipo)]: the texts of the four
    metric cards.  The table and the two figures, widgets of dash and
    plotly, are not modelled.  [dados] is [None] before the first cycle. *)
Definition atualizar_dashboard (dados : option (list Database.linha))
    (filtro_tipo : string) : metricas :=
  match dados with
  | None | Some [] =>
      {| dy_medio := "0%"; total_ativos := "0"; total_fiis := "0"; melhor_dy := "0%" |}
  | Some df0 =>
      let df :=
        if bool_decide (filtro_tipo ≠ "ALL"%string)
        then filter (fun l => tipo (Database.dados l) = filtro_tipo) df0
        else df0 in
      let dys := (fun l => dividend_yield (Database.dados l)) <$> df in
      {| dy_medio :=
           match dys with
           | [] => "0%"
           | _ :: _ => fmt2 (Num.mean dys) +:+ "%"
           end;
         total_ativos := pretty (length df);
         total_fiis :=
           pretty (length (filter (fun l => tipo (Database.dados l) = "FII"%string) df));
         melhor_dy :=
           match dys with
           | [] => "0%"
           | y :: ys => fmt2 (maximo y ys) +:+ "%"
           end |}
  end.

End Dashboard.

End App.

(** ** The content of the table, row ids apart *)

Module Tabela.

(** What one [INSERT OR REPLACE] does to the records, row ids apart. *)
Definition passo (acc : list ativo) (a : ativo) : list ativo :=
  filter (fun b => simbolo b ≠ simbolo a) acc ++ [a].

(** The records of a list that a save keeps: for each symbol the last
    record that bears it, in the order of these last records. *)
Definition ultimos (lista : list ativo) : list ativo := foldl passo [] lista.

(** The records stored, in the order of the table. *)
Definition registros (d : Database.db) : list ativo :=
  Database.dados <$> Database.ativos d.

(** The ids stored, in the order of the table. *)
Definition ids (d : Database.db) : list Z :=
  Database.id <$> Database.ativos d.

(** What [simbolo TEXT UNIQUE] and [AUTOINCREMENT] keep true of the table:
    no symbol twice, ids growing along the table, none above the counter. *)
Definition bem_formada (d : Database.db) : Prop :=
  NoDup (simbolo <$> registros d)
  /\ StronglySorted Z.lt (ids d)
  /\ Forall (fun i => (i <= Database.sequencia d)%Z) (ids d).

End Tabela.

(** ** More sample providers *)

Module ExemplosApp.

(** The provider knows VALE3.SA alone: its metadata, without a name, and
    one session closing at 50. *)
Definition mundo_so_vale : world :=
  Exemplos.mundo (fun s =>
    if String.eqb s "VALE3.SA"
    then {| history := Ret [ {| bar_open := 49; bar_close := 50 |} ];
            info := Ret {| longName := None; sector := None |};
            dividends := Ret [] |}
    else Exemplos.ticker_vazio).

End ExemplosApp.

(** ** The numbers as the code has them: binary64

    The modules above take the numbers of the loaders as exact rationals;
    their theorems are about signs, constants and the shape of a record.
    The value of a computed field depends on how doubles round.  This
    module embeds the arithmetic path of the two loaders on IEEE binary64:
    [+], [-], [*] and [/] are the operations of the hardware, a division by
    zero gives [inf] or [nan], and [round(x, 2)] on a numpy double is
    [rint(x * 100) / 100]. *)

Module Binary64.

Local Open Scope float_scope.

(** *** numpy and pandas on doubles *)

Module F64.

(** [numpy.rint]: the nearest integer, ties to the even one; zeros,
    infinities, [nan] and doubles without a fraction (exponent 0 or more)
    are returned as they are.  A double with a fraction is below 2^52 in
    size, so its nearest integer is a double. *)
Definition rint (x : float) : float :=
  match Prim2SF x with
  | S754_finite s m e =>
      if (e <? 0)%Z
      then
        let k := Num.rint (Qmake (Z.pos m) (2 ^ Z.to_pos (- e))) in
        let y := PrimFloat.of_uint63 (Uint63.of_Z k) in
        if s then - y else y
      else x
  | _ => x
  end.

(** [round(x, 2)]. *)
Definition round2 (x : float) : float := rint (x * 100) / 100.

(** [len(...)] as a double. *)
Definition of_nat (n : nat) : float := PrimFloat.of_uint63 (Uint63.of_Z (Z.of_nat n)).

(** The sum of a series, from the left. *)
Definition sum (l : list float) : float :=
  match l with
  | [] => 0
  | x :: l' => foldl PrimFloat.add x l'
  end.

(** [Series.mean()]: pandas leaves the [nan] entries out of the sum and of
    the count. *)
Definition mean (l : list float) : float :=
  sum ((fun x => if is_nan x then 0 else x) <$> l)
  / of_nat (length (filter (fun x => is_nan x = false) l)).

End F64.

(** *** The provider and the record *)

Record bar : Type := { bar_open : float; bar_close : float }.

(** [history_2d] is [ticker.history(period="2d", timeout=20)], the call of
    [data_loader.py]; [history_1d] is [ticker.history(period="1d")], the
    call of [app.py]. *)
Record ticker : Type := {
  history_2d : outcome (list bar);
  history_1d : outcome (list bar);
  info : outcome info_dict;
  dividends : outcome (list float)
}.

(** The clock is not part of the provider: a function that builds a record
    reads [datetime.now()] once, and takes that reading as its argument
    [agora]. *)
Record world : Type := {
  set_session : string -> outcome unit;   (* yf.set_session(session) *)
  Ticker : string -> ticker               (* yf.Ticker(simbolo) *)
}.

Record ativo : Type := {
  simbolo : string;
  nome : string;
  tipo : string;
  preco_atual : float;
  dividend_yield : float;
  ultimo_dividendo : float;
  frequencia_pagamento : string;
  setor : string;
  variacao_dia : float;
  atualizado_em : Z
}.

(** *** [src/data_loader.py] *)

Module RobustDataLoader.

Definition mock_prices : gmap string float :=
  list_to_map
    [ ("VALE3.SA", 68.90); ("PETR4.SA", 37.50); ("BBAS3.SA", 57.80);
      ("ITUB4.SA", 33.45); ("TAEE11.SA", 41.20); ("MXRF11.SA", 10.25);
      ("HGLG11.SA", 158.30); ("KNRI11.SA", 134.50); ("VISC11.SA", 94.80);
      ("RBRP11.SA", 86.90); ("SDIL11.SA", 106.75); ("BOVA11.SA", 115.40);
      ("DIVO11.SA", 98.60); ("SMAL11.SA", 52.30); ("IVVB11.SA", 245.80) ]%string.

Definition _get_mock_price (simbolo : string) : float :=
  default 10.0 (mock_prices !! simbolo).

Definition _safe_dividend_calc (t : ticker) (current_price : float) : float :=
  match dividends t with
  | Ret ds =>
      if bool_decide (0 < length ds)%nat && (0 <? current_price)
      then
        let avg_dividend := F64.mean (Num.tail 4 ds) in
        (avg_dividend * 12 / current_price) * 100
      else 0.0
  | Raise _ => 0.0
  end.

Definition _safe_last_dividend (t : ticker) : float :=
  match dividends t with
  | Ret ds => default 0.0 (last ds)
  | Raise _ => 0.0
  end.

Definition _get_yfinance_data (w : world) (agora : Z) (simbolo : string)
  : outcome (option ativo) :=
  try_except
    (_ ← set_session w simbolo;
     let t := Ticker w simbolo in
     hist ← history_2d t;
     match hist with
     | [] => Ret None
     | b0 :: _ =>
         let preco_atual := bar_close (default b0 (last hist)) in
         let preco_anterior :=
           if bool_decide (1 < length hist)%nat
           then bar_open (default b0 (last hist))
           else bar_close b0 in
         let variacao := ((preco_atual - preco_anterior) / preco_anterior) * 100 in
         let '(nome_, setor_) :=
           match info t with
           | Ret i => (default (RobustDataLoader.nome_fallback simbolo) (longName i),
                       default "N/A"%string (sector i))
           | Raise _ => (RobustDataLoader.nome_fallback simbolo, "N/A"%string)
           end in
         let dividend_yield_ := _safe_dividend_calc t preco_atual in
         let ultimo_dividendo_ := _safe_last_dividend t in
         Ret (Some {|
           simbolo := Str.replace ".SA" "" simbolo;
           nome := nome_;
           tipo := RobustDataLoader.tipo_de RobustDataLoader.ativos_monitorados simbolo;
           preco_atual := F64.round2 preco_atual;
           dividend_yield := F64.round2 dividend_yield_;
           ultimo_dividendo := F64.round2 ultimo_dividendo_;
           frequencia_pagamento := RobustDataLoader._get_frequencia_pagamento simbolo;
           setor := setor_;
           variacao_dia := F64.round2 variacao;
           atualizado_em := agora
         |})
     end)
    (fun _ => Ret None).

Definition _get_fallback_data (w : world) (agora : Z) (simbolo : string)
  : outcome (option ativo) :=
  try_except
    (let preco_mock := _get_mock_price simbolo in
     Ret (Some {|
       simbolo := Str.replace ".SA" "" simbolo;
       nome := RobustDataLoader.nome_fallback simbolo;
       tipo := RobustDataLoader.tipo_de RobustDataLoader.ativos_monitorados simbolo;
       preco_atual := preco_mock;
       dividend_yield := 6.5;
       ultimo_dividendo := 0.50;
       frequencia_pagamento := RobustDataLoader._get_frequencia_pagamento simbolo;
       setor := "N/A";
       variacao_dia := 0.0;
       atualizado_em := agora
     |}))
    (fun _ => Ret None).

(** Lines 52 to 56 of [get_ativos_info]. *)
Definition buscar_dados (w : world) (agora : Z) (simbolo : string)
  : outcome (option ativo) :=
  dados ← _get_yfinance_data w agora simbolo;
  match dados with
  | None => _get_fallback_data w agora simbolo
  | Some _ => Ret dados
  end.

End RobustDataLoader.

(** *** [src/app.py] *)

Module DataLoader.

Definition _estimate_dividend_yield (t : ticker) (current_price : float) : float :=
  match dividends t with
  | Ret ds =>
      if bool_decide (0 < length ds)%nat && (0 <? current_price)
      then
        let avg_dividend := F64.mean (Num.tail 4 ds) in
        (avg_dividend * 12 / current_price) * 100
      else 0.0
  | Raise _ => 0.0
  end.

Definition _get_ultimo_dividendo (t : ticker) : float :=
  match dividends t with
  | Ret ds => default 0.0 (last ds)
  | Raise _ => 0.0
  end.

(** The body of the [try] of [get_ativos_info], for one symbol. *)
Definition corpo (w : world) (agora : Z) (tipo_ simbolo_ : string) (ativos : list ativo)
  : outcome (list ativo) :=
  let t := Ticker w simbolo_ in
  i ← info t;
  hist ← history_1d t;
  match hist with
  | [] => Ret ativos
  | b0 :: _ =>
      let preco_atual_ := bar_close (default b0 (last hist)) in
      let preco_anterior :=
        if bool_decide (1 < length hist)%nat
        then bar_open (default b0 (last hist))
        else preco_atual_ in
      let variacao := ((preco_atual_ - preco_anterior) / preco_anterior) * 100 in
      let dividend_yield_ := _estimate_dividend_yield t preco_atual_ in
      let ultimo_dividendo_ := _get_ultimo_dividendo t in
      Ret (ativos ++ [ {|
        simbolo := Str.replace ".SA" "" simbolo_;
        nome := default simbolo_ (longName i);
        tipo := tipo_;
        preco_atual := preco_atual_;
        dividend_yield := dividend_yield_;
        ultimo_dividendo := ultimo_dividendo_;
        frequencia_pagamento := DataLoader._get_frequencia_pagamento tipo_;
        setor := default "N/A"%string (sector i);
        variacao_dia := variacao;
        atualizado_em := agora
      |} ])
  end.

End DataLoader.

(** *** The yield as the specification words it

    "Dividend yield estimate: average of the most recent 4 dividend
    payments (fewer if history is shorter; zero if no history), annualized
    by multiplying by 12, divided by current price, expressed as a
    percentage.  If current price <= 0 or no dividend history exists,
    yield = 0.0" and "Dividend yield = 0.0 whenever current price <= 0 or
    dividend history is empty; otherwise equals avg(last <=4 dividends) *
    12 / price * 100, rounded to 2 decimals."  Written from these words,
    not from the code, to be compared with the two loaders. *)

Module Spec.

(** The last [n] entries, or all of them when there are fewer. *)
Definition ultimos (n : nat) (ds : list float) : list float :=
  reverse (take n (reverse ds)).

(** The average of one to four payments. *)
Definition media (l : list float) : float :=
  match l with
  | [a] => a / 1
  | [a; b] => (a + b) / 2
  | [a; b; c] => (a + b + c) / 3
  | [a; b; c; d] => (a + b + c + d) / 4
  | _ => nan
  end.

(** To two decimals, the way a double is rounded to a number of decimals:
    scaled by 100, brought to the nearest integer, scaled back. *)
Definition duas_casas (x : float) : float := F64.rint (x * 100) / 100.

(** The estimate of section 4.2, which names no rounding. *)
Definition dividend_yield_sem_arredondar (ds : list float) (price : float) : float :=
  match ds with
  | [] => 0.0
  | _ :: _ =>
      if price <=? 0 then 0.0
      else media (ultimos 4 ds) * 12 / price * 100
  end.

(** The yield of section 8, rounded to 2 decimals. *)
Definition dividend_yield_spec (ds : list float) (price : float) : float :=
  match ds with
  | [] => 0.0
  | _ :: _ =>
      if price <=? 0 then 0.0
      else duas_casas (media (ultimos 4 ds) * 12 / price * 100)
  end.

End Spec.

(** *** Sample providers *)

Module Exemplos.

(** A ticker whose calls all return: [bars2] for the two days of
    [data_loader.py], [bars1] for the one day of [app.py]. *)
Definition ticker_de (bars2 bars1 : list bar) (divs : list float) : ticker :=
  {| history_2d := Ret bars2; history_1d := Ret bars1;
     info := Ret {| longName := None; sector := None |};
     dividends := Ret divs |}.

Definition ticker_vazio : ticker := ticker_de [] [] [].

Definition mundo (s0 : string) (t : ticker) : world :=
  {| set_session := fun _ => Ret ();
     Ticker := fun s => if String.eqb s s0 then t else ticker_vazio |}.

Definition dividendos_vale : list float := [9; 17; 25; 34.5; 8.5].

(** VALE3.SA: the last of two sessions opens at 160 and closes at 183;
    five dividends. *)
Definition mundo_vale : world :=
  mundo "VALE3.SA"
    (ticker_de [ {| bar_open := 158; bar_close := 160 |};
                 {| bar_open := 160; bar_close := 183 |} ]
               [ {| bar_open := 160; bar_close := 183 |} ]
               dividendos_vale).

(** PETR4.SA: the last session closes at 640, and the provider hands out
    two sessions to either call; four dividends of 17. *)
Definition mundo_petr : world :=
  mundo "PETR4.SA"
    (ticker_de [ {| bar_open := 636; bar_close := 638 |};
                 {| bar_open := 638; bar_close := 640 |} ]
               [ {| bar_open := 636; bar_close := 638 |};
                 {| bar_open := 638; bar_close := 640 |} ]
               [17; 17; 17; 17]).

(** ITUB4.SA: one session, closing at 2.675; one dividend of 1.015. *)
Definition mundo_itub : world :=
  mundo "ITUB4.SA"
    (ticker_de [ {| bar_open := 2.5; bar_close := 2.675 |} ]
               [ {| bar_open := 2.5; bar_close := 2.675 |} ]
               [1.015]).

(** The records of [data_loader.py] in these worlds, with the clock at 0. *)
Definition robusto_vale : ativo :=
  {| simbolo := "VALE3"; nome := "Vale SA"; tipo := "ACAO";
     preco_atual := 183; dividend_yield := 139.34; ultimo_dividendo := 8.5;
     frequencia_pagamento := "Trimestral/Semestral"; setor := "N/A";
     variacao_dia := 14.37; atualizado_em := 0 |}.

Definition robusto_petr : ativo :=
  {| simbolo := "PETR4"; nome := "Petrobras"; tipo := "ACAO";
     preco_atual := 640; dividend_yield := 31.87; ultimo_dividendo := 17;
     frequencia_pagamento := "Trimestral/Semestral"; setor := "N/A";
     variacao_dia := 0.31; atualizado_em := 0 |}.

Definition robusto_itub : ativo :=
  {| simbolo := "ITUB4";
     nome := RobustDataLoader.nome_fallback "ITUB4.SA"; tipo := "ACAO";
     preco_atual := 2.68; dividend_yield := 455.33; ultimo_dividendo := 1.01;
     frequencia_pagamento := "Trimestral/Semestral"; setor := "N/A";
     variacao_dia := 0; atualizado_em := 0 |}.

(** MXRF11.SA has no history in [mundo_itub]: the static record. *)
Definition estatico_mxrf : ativo :=
  {| simbolo := "MXRF11"; nome := "Maxi Renda FII"; tipo := "FII";
     preco_atual := 10.25; dividend_yield := 6.5; ultimo_dividendo := 0.5;
     frequencia_pagamento := "Trimestral"; setor := "N/A";
     variacao_dia := 0; atualizado_em := 0 |}.

(** The records of [app.py] in the same worlds. *)
Definition app_vale : ativo :=
  {| simbolo := "VALE3"; nome := "VALE3.SA"; tipo := "ACAO";
     preco_atual := 183; dividend_yield := 139.34426229508196;
     ultimo_dividendo := 8.5;
     frequencia_pagamento := "Trimestral/Semestral"; setor := "N/A";
     variacao_dia := 0; atualizado_em := 0 |}.

Definition app_petr : ativo :=
  {| simbolo := "PETR4"; nome := "PETR4.SA"; tipo := "ACAO";
     preco_atual := 640; dividend_yield := 31.874999999999996;
     ultimo_dividendo := 17;
     frequencia_pagamento := "Trimestral/Semestral"; setor := "N/A";
     variacao_dia := 0.31347962382445138; atualizado_em := 0 |}.

Definition app_itub : ativo :=
  {| simbolo := "ITUB4"; nome := "ITUB4.SA"; tipo := "ACAO";
     preco_atual := 2.675; dividend_yield := 455.32710280373834;
     ultimo_dividendo := 1.015;
     frequencia_pagamento := "Trimestral/Semestral"; setor := "N/A";
     variacao_dia := 0; atualizado_em := 0 |}.

End Exemplos.

End Binary64.

(** * Facts *)

(** ** Rounding *)

Module NumFacts.
Import Num.

Lemma rint_comp (q q' : Q) : q == q' -> rint q = rint q'.
Proof.
  intros H. unfold rint.
  rewrite (Qfloor_comp _ _ H).
  assert (Hr : q - inject_Z (Qfloor q') == q' - inject_Z (Qfloor q')) by (rewrite H; reflexivity).
  rewrite (Qcompare_comp _ _ Hr (1 # 2) (1 # 2) (Qeq_refl _)).
  reflexivity.
Qed.

Lemma rint_Z (z : Z) : rint (inject_Z z) = z.
Proof.
  unfold rint. rewrite Qfloor_Z.
  replace (Qcompare (inject_Z z - inject_Z z) (1 # 2)) with Lt; [reflexivity |].
  symmetry. apply (proj1 (Qlt_alt _ _)). lra.
Qed.

Lemma two_decimals_round2 (q : Q) : two_decimals q <-> round2 q == q.
Proof.
  split.
  - intros [z Hz]. unfold round2.
    rewrite (rint_comp (q * 100) (inject_Z z)).
    + rewrite rint_Z. symmetry. exact Hz.
    + rewrite Hz. field.
  - intros H. exists (rint (q * 100)). symmetry. exact H.
Qed.

Lemma is_two_decimals_spec (q : Q) : is_two_decimals q = true <-> two_decimals q.
Proof.
  unfold is_two_decimals. rewrite Qeq_bool_iff. symmetry. apply two_decimals_round2.
Qed.




Lemma Qdiv_100 (x : Q) : x / 100 == x * (1 # 100).
Proof. reflexivity. Qed.


Lemma f64_div_zero (a b : Q) : b == 0 -> f64_div a b = NonFinite.
Proof. intros Hb. unfold f64_div. rewrite (Qeq_eq_bool _ _ Hb). reflexivity. Qed.

End NumFacts.

(** ** The robust loader *)

Module RobustFacts.
Import Num NumFacts RobustDataLoader.

(** The price the code reads as "previous": the open of the last bar when
    the history has two bars or more, the first close otherwise. *)
Lemma yfinance_registro (w : world) (s : string) (r : ativo) :
  _get_yfinance_data w s = Ret (Some r) ->
  exists b0 b hist,
    set_session w s = Ret () /\
    history (Ticker w s) = Ret hist /\
    head hist = Some b0 /\ last hist = Some b /\
    simbolo r = Str.replace ".SA" "" s /\
    nome r = match info (Ticker w s) with
             | Ret i => default (nome_fallback s) (longName i)
             | Raise _ => nome_fallback s
             end /\
    setor r = match info (Ticker w s) with
              | Ret i => default "N/A"%string (sector i)
              | Raise _ => "N/A"%string
              end /\
    tipo r = tipo_de ativos_monitorados s /\
    frequencia_pagamento r = _get_frequencia_pagamento s /\
    preco_atual r = round2 (bar_close b) /\
    dividend_yield r = round2 (_safe_dividend_calc (Ticker w s) (bar_close b)) /\
    ultimo_dividendo r = round2 (_safe_last_dividend (Ticker w s)) /\
    variacao_dia r =
      (let p := if bool_decide (1 < length hist)%nat then bar_open b else bar_close b0 in
       f64_map round2 (f64_map (fun x => x * 100) (f64_div (bar_close b - p) p))).
Proof.
  unfold _get_yfinance_data, try_except, mbind, outcome_bind. cbv zeta. intros H.
  destruct (set_session w s) as [[] | e] eqn:Hs; [| discriminate].
  destruct (history (Ticker w s)) as [hist | e] eqn:Hh; [| discriminate].
  destruct hist as [| b0 rest]; [discriminate |].
  destruct (last (b0 :: rest)) as [b |] eqn:Hl.
  2:{ apply last_None in Hl. discriminate. }
  exists b0, b, (b0 :: rest).
  destruct (info (Ticker w s)) as [i | e];
    injection H as <-; repeat split; first [reflexivity | exact Hl].
Qed.


Lemma yfinance_sem_historico (w : world) (s : string) :
  history (Ticker w s) = Ret [] \/ (exists e, history (Ticker w s) = Raise e) ->
  _get_yfinance_data w s = Ret None.
Proof.
  intros H. unfold _get_yfinance_data, try_except, mbind, outcome_bind. cbv zeta.
  destruct (set_session w s) as [[] | e0]; [| reflexivity].
  destruct H as [-> | [e ->]]; reflexivity.
Qed.

(** The primary path never lets an exception out. *)
Lemma yfinance_nao_levanta (w : world) (s : string) :
  exists d, _get_yfinance_data w s = Ret d.
Proof.
  unfold _get_yfinance_data, try_except, mbind, outcome_bind. cbv zeta.
  destruct (set_session w s) as [[] | e0]; [| eauto].
  destruct (history (Ticker w s)) as [[| b0 rest] | e]; [eauto | | eauto].
  destruct (info (Ticker w s)); eauto.
Qed.

Lemma fallback_registro (w : world) (s : string) :
  exists r, _get_fallback_data w s = Ret (Some r) /\
    simbolo r = Str.replace ".SA" "" s /\
    nome r = nome_fallback s /\
    tipo r = tipo_de ativos_monitorados s /\
    frequencia_pagamento r = _get_frequencia_pagamento s /\
    preco_atual r = _get_mock_price s /\
    dividend_yield r = 6.5 /\
    ultimo_dividendo r = 0.50 /\
    setor r = "N/A"%string /\
    variacao_dia r = Finite 0.0.
Proof. eexists. split; [reflexivity |]. cbn. repeat split. Qed.

(** A record of [buscar_dados] comes from the provider, or from the static
    data after the provider gave nothing. *)
Lemma buscar_dados_origem (w : world) (s : string) (r : ativo) :
  buscar_dados w s = Ret (Some r) ->
  _get_yfinance_data w s = Ret (Some r)
  \/ (_get_yfinance_data w s = Ret None /\ _get_fallback_data w s = Ret (Some r)).
Proof.
  unfold buscar_dados, mbind, outcome_bind. intros H.
  destruct (_get_yfinance_data w s) as [[d |] | e]; [left | right | discriminate].
  - exact H.
  - split; [reflexivity | exact H].
Qed.

(** [buscar_dados] always produces a record: the static data never fail. *)
Lemma buscar_dados_total (w : world) (s : string) :
  exists r, buscar_dados w s = Ret (Some r) /\
    tipo r = tipo_de ativos_monitorados s /\
    frequencia_pagamento r = _get_frequencia_pagamento s.
Proof.
  destruct (yfinance_nao_levanta w s) as [[d |] Hd].
  - exists d. split.
    + unfold buscar_dados, mbind, outcome_bind. rewrite Hd. reflexivity.
    + destruct (yfinance_registro w s d Hd)
        as (b0 & b & hist & _ & _ & _ & _ & _ & _ & _ & Ht & Hf & _).
      split; assumption.
  - destruct (fallback_registro w s) as (r & Hr & _ & _ & Ht & Hf & _).
    exists r. split; [| split; assumption].
    unfold buscar_dados, mbind, outcome_bind. rewrite Hd. exact Hr.
Qed.


End RobustFacts.

Module YieldFacts.
Import Num NumFacts RobustDataLoader.

Lemma ltb_lt (a b : Q) : ltb a b = true <-> a < b.
Proof.
  unfold ltb. destruct (Qcompare a b) eqn:Hc.
  - apply Qeq_alt in Hc. split; [discriminate | lra].
  - apply Qlt_alt in Hc. split; [intros _; exact Hc | reflexivity].
  - apply Qgt_alt in Hc. split; [discriminate | lra].
Qed.

(** [tail n l] is the end of [l], of [n] entries or of all of them. *)
Lemma tail_suffix {A} (n : nat) (l : list A) :
  take (length l - n) l ++ tail n l = l /\ length (tail n l) = Nat.min n (length l).
Proof.
  unfold tail. split; [apply take_drop |].
  rewrite length_drop. lia.
Qed.

End YieldFacts.

(** ** The collection loops *)

Module LoopFacts.

(** *** [RobustDataLoader.get_ativos_info] *)

Import RobustDataLoader.

(** The body raises exactly when [requests.Session()] does. *)
Lemma corpo_raise (w : world) (s : string) (a : list ativo) (e : string) :
  corpo w s a = Raise e <-> new_session w s = Raise e.
Proof.
  unfold corpo, mbind, outcome_bind.
  destruct (new_session w s) as [[] | e0].
  - destruct (RobustFacts.buscar_dados_total w s) as (r & -> & _).
    split; discriminate.
  - split; intros H; injection H as ->; reflexivity.
Qed.

Lemma para_simbolos_cons (w : world) (s : string) (resto : list string) (a : list ativo) :
  para_simbolos w (s :: resto) a
  = match corpo w s a with
    | Ret a' => para_simbolos w resto a'
    | Raise _ => para_simbolos w resto a
    end.
Proof. cbn. unfold try_except. destruct (corpo w s a); reflexivity. Qed.

Lemma para_simbolos_total (w : world) (l : list string) (a : list ativo) :
  exists a', para_simbolos w l a = Ret a'.
Proof.
  revert a. induction l as [| s l IH]; intros a; [exists a; reflexivity |].
  rewrite para_simbolos_cons. destruct (corpo w s a); apply IH.
Qed.

Lemma para_tipos_total (w : world) (items : list (string * list string)) (a : list ativo) :
  exists a', para_tipos w items a = Ret a'.
Proof.
  revert a. induction items as [| [t l] items IH]; intros a; [exists a; reflexivity |].
  cbn. destruct (para_simbolos_total w l a) as [a' ->]. apply IH.
Qed.

Lemma para_simbolos_skip (w : world) (pre post : list string) (s e : string)
    (a0 a : list ativo) :
  corpo w s a0 = Raise e ->
  para_simbolos w (pre ++ s :: post) a = para_simbolos w (pre ++ post) a.
Proof.
  intros H. apply corpo_raise in H.
  revert a. induction pre as [| x pre IH]; intros a.
  - cbn [app]. rewrite para_simbolos_cons.
    rewrite (proj2 (corpo_raise w s a e) H). reflexivity.
  - cbn [app]. rewrite !para_simbolos_cons. destruct (corpo w x a); apply IH.
Qed.

End LoopFacts.

Module AppLoopFacts.

(** *** [DataLoader.get_ativos_info] of [app.py] *)

Import DataLoader.

(** Whether the body raises does not depend on the records gathered. *)
Lemma app_corpo_raise (w : world) (t s : string) (a a' : list ativo) (e : string) :
  corpo w t s a = Raise e -> corpo w t s a' = Raise e.
Proof.
  unfold corpo, mbind, outcome_bind. cbv zeta.
  destruct (info (Ticker w s)) as [i | e0]; [| exact id].
  destruct (history (Ticker w s)) as [[| b0 rest] | e0]; [discriminate | discriminate | exact id].
Qed.

Lemma app_para_simbolos_cons (w : world) (t s : string) (resto : list string) (a : list ativo) :
  para_simbolos w t (s :: resto) a
  = match corpo w t s a with
    | Ret a' => para_simbolos w t resto a'
    | Raise _ => para_simbolos w t resto a
    end.
Proof. cbn. unfold try_except. destruct (corpo w t s a); reflexivity. Qed.

Lemma app_para_simbolos_total (w : world) (t : string) (l : list string) (a : list ativo) :
  exists a', para_simbolos w t l a = Ret a'.
Proof.
  revert a. induction l as [| s l IH]; intros a; [exists a; reflexivity |].
  rewrite app_para_simbolos_cons. destruct (corpo w t s a); apply IH.
Qed.

Lemma app_para_tipos_total (w : world) (items : list (string * list string)) (a : list ativo) :
  exists a', para_tipos w items a = Ret a'.
Proof.
  revert a. induction items as [| [t l] items IH]; intros a; [exists a; reflexivity |].
  cbn. destruct (app_para_simbolos_total w t l a) as [a' ->]. apply IH.
Qed.

Lemma app_para_simbolos_skip (w : world) (t : string) (pre post : list string) (s e : string)
    (a0 a : list ativo) :
  corpo w t s a0 = Raise e ->
  para_simbolos w t (pre ++ s :: post) a = para_simbolos w t (pre ++ post) a.
Proof.
  intros H. revert a. induction pre as [| x pre IH]; intros a.
  - cbn [app]. rewrite app_para_simbolos_cons.
    rewrite (app_corpo_raise w t s a0 a e H). reflexivity.
  - cbn [app]. rewrite !app_para_simbolos_cons. destruct (corpo w t x a); apply IH.
Qed.

(** The loader of [app.py] has no second source: a symbol without price
    bars yields no record. *)
Lemma corpo_sem_historico (w : world) (t s : string) (a : list ativo) (i : info_dict) :
  info (Ticker w s) = Ret i -> history (Ticker w s) = Ret [] ->
  corpo w t s a = Ret a.
Proof.
  intros Hi Hh. unfold corpo, mbind, outcome_bind. cbv zeta.
  rewrite Hi, Hh. reflexivity.
Qed.

(** In [app.py] the metadata are read inside the [try] of the loop: when
    the lookup raises, the symbol is dropped. *)
Lemma corpo_sem_info (w : world) (t s : string) (a : list ativo) (e : string) :
  info (Ticker w s) = Raise e -> corpo w t s a = Raise e.
Proof.
  intros Hi. unfold corpo, mbind, outcome_bind. cbv zeta. rewrite Hi. reflexivity.
Qed.

(** The record of [app.py] carries the raw numbers and takes its label
    from the category. *)
Lemma corpo_registro (w : world) (t s : string) (a : list ativo)
    (i : info_dict) (b0 : bar) (rest : list bar) :
  info (Ticker w s) = Ret i -> history (Ticker w s) = Ret (b0 :: rest) ->
  exists r b,
    corpo w t s a = Ret (a ++ [r]) /\ last (b0 :: rest) = Some b /\
    tipo r = t /\
    frequencia_pagamento r = _get_frequencia_pagamento t /\
    preco_atual r = bar_close b /\
    dividend_yield r = _estimate_dividend_yield (Ticker w s) (bar_close b) /\
    ultimo_dividendo r = _get_ultimo_dividendo (Ticker w s).
Proof.
  intros Hi Hh. unfold corpo, mbind, outcome_bind. cbv zeta. rewrite Hi, Hh.
  destruct (last (b0 :: rest)) as [b |] eqn:Hl.
  2:{ apply last_None in Hl. discriminate. }
  eexists. exists b. split; [reflexivity |]. repeat split.
Qed.

Lemma frequencia_por_categoria :
  _get_frequencia_pagamento "FII" = "Mensal"%string /\
  _get_frequencia_pagamento "ETF" = "Trimestral"%string /\
  _get_frequencia_pagamento "ACAO" = "Trimestral/Semestral"%string.
Proof. repeat split. Qed.

End AppLoopFacts.

(** ** The store *)

Module DatabaseFacts.
Import Database.

Lemma linhas_de_insert_eq (d : db) (a : ativo) :
  linhas_de (simbolo a) (insert_or_replace d a)
  = [ {| id := (Z.max (sequencia d) (maior_id (ativos d)) + 1)%Z; dados := a |} ].
Proof.
  unfold linhas_de, insert_or_replace. cbn [ativos].
  rewrite filter_app, filter_cons_True by reflexivity.
  rewrite filter_nil.
  replace (filter _ (filter _ (ativos d))) with (@nil linha); [reflexivity |].
  symmetry. induction (ativos d) as [| l t IH]; [reflexivity |].
  rewrite filter_cons. destruct (decide (simbolo (dados l) ≠ simbolo a)) as [Hne | He].
  - rewrite filter_cons_False by exact Hne. exact IH.
  - exact IH.
Qed.

Lemma linhas_de_insert_ne (d : db) (a : ativo) (s : string) :
  simbolo a ≠ s -> linhas_de s (insert_or_replace d a) = linhas_de s d.
Proof.
  intros Hne. unfold linhas_de, insert_or_replace. cbn [ativos].
  rewrite filter_app, filter_cons_False by exact Hne.
  rewrite filter_nil, app_nil_r.
  induction (ativos d) as [| l t IH]; [reflexivity |].
  rewrite !filter_cons.
  destruct (decide (simbolo (dados l) ≠ simbolo a)) as [H1 | H1];
    destruct (decide (simbolo (dados l) = s)) as [H2 | H2].
  - rewrite filter_cons_True by exact H2. f_equal. exact IH.
  - rewrite filter_cons_False by exact H2. exact IH.
  - exfalso. apply Hne. apply dec_stable in H1. congruence.
  - exact IH.
Qed.

Lemma salvar_ativos_app (d : db) (l1 l2 : list ativo) :
  salvar_ativos d (l1 ++ l2) = salvar_ativos (salvar_ativos d l1) l2.
Proof. apply foldl_app. Qed.

Lemma linhas_de_salvar_ne (s : string) (lista : list ativo) (d : db) :
  Forall (fun a => simbolo a ≠ s) lista ->
  linhas_de s (salvar_ativos d lista) = linhas_de s d.
Proof.
  revert d. induction lista as [| a lista IH]; intros d H; [reflexivity |].
  apply Forall_cons in H as [Ha H]. cbn.
  change (foldl insert_or_replace (insert_or_replace d a) lista)
    with (salvar_ativos (insert_or_replace d a) lista).
  rewrite (IH _ H). apply linhas_de_insert_ne, Ha.
Qed.

(** After a save, the symbol of a record of the list has one row: the one
    of the last record of the list that bears that symbol. *)
Lemma linhas_de_salvar_ultimo (d : db) (l1 l2 : list ativo) (r : ativo) :
  Forall (fun a => simbolo a ≠ simbolo r) l2 ->
  exists i, linhas_de (simbolo r) (salvar_ativos d (l1 ++ r :: l2))
            = [ {| id := i; dados := r |} ].
Proof.
  intros H. rewrite salvar_ativos_app. cbn.
  change (foldl insert_or_replace (insert_or_replace ?x r) l2)
    with (salvar_ativos (insert_or_replace x r) l2).
  rewrite (linhas_de_salvar_ne _ _ _ H).
  eexists. apply linhas_de_insert_eq.
Qed.

(** A read returns the rows of the table, in another order. *)
Lemma carregar_ativos_perm (d : db) : carregar_ativos d ≡ₚ ativos d.
Proof. apply merge_sort_Permutation. Qed.

Lemma carregar_linhas_de (d : db) (s : string) (l : linha) :
  linhas_de s d = [l] ->
  filter (fun x => simbolo (dados x) = s) (carregar_ativos d) = [l].
Proof.
  intros H. apply Permutation_singleton_r.
  rewrite (carregar_ativos_perm d). unfold linhas_de in H. rewrite H. reflexivity.
Qed.

(** The rows whose symbol is not in the list: a save leaves them as they
    are, in the order they had. *)
Lemma insert_or_replace_frame (P : string -> Prop) `{!forall s, Decision (P s)}
    (d : db) (a : ativo) :
  ~ P (simbolo a) ->
  filter (fun l => P (simbolo (dados l))) (ativos (insert_or_replace d a))
  = filter (fun l => P (simbolo (dados l))) (ativos d).
Proof.
  intros Ha. unfold insert_or_replace. cbn [ativos].
  rewrite filter_app, filter_cons_False by exact Ha.
  rewrite filter_nil, app_nil_r.
  induction (ativos d) as [| l t IH]; [reflexivity |].
  rewrite !filter_cons.
  destruct (decide (simbolo (dados l) ≠ simbolo a)) as [H1 | H1];
    destruct (decide (P (simbolo (dados l)))) as [H2 | H2].
  - rewrite filter_cons_True by exact H2. f_equal. exact IH.
  - rewrite filter_cons_False by exact H2. exact IH.
  - exfalso. apply Ha. apply dec_stable in H1. rewrite <- H1. exact H2.
  - exact IH.
Qed.

Lemma salvar_ativos_frame (lista : list ativo) (d : db) :
  filter (fun l => simbolo (dados l) ∉ simbolo <$> lista) (ativos (salvar_ativos d lista))
  = filter (fun l => simbolo (dados l) ∉ simbolo <$> lista) (ativos d).
Proof.
  assert (G : forall (P : string -> Prop) `{!forall s, Decision (P s)} l' d',
             Forall (fun a => ~ P (simbolo a)) l' ->
             filter (fun l => P (simbolo (dados l))) (ativos (salvar_ativos d' l'))
             = filter (fun l => P (simbolo (dados l))) (ativos d')).
  { intros P HP l'. induction l' as [| a l' IH]; intros d' H; [reflexivity |].
    apply Forall_cons in H as [Ha H]. cbn.
    change (foldl insert_or_replace (insert_or_replace d' a) l')
      with (salvar_ativos (insert_or_replace d' a) l').
    rewrite (IH _ H). apply insert_or_replace_frame, Ha. }
  assert (HF : Forall (fun a => ~ (simbolo a ∉ simbolo <$> lista)) lista).
  { apply Forall_forall. intros a Ha Hn. apply Hn.
    apply list_elem_of_fmap. exists a. split; [reflexivity | exact Ha]. }
  exact (G (fun s => s ∉ simbolo <$> lista) _ lista d HF).
Qed.

(** A save brings in no row but those of the list. *)
Lemma salvar_ativos_origem (lista : list ativo) (d : db) (l : linha) :
  l ∈ ativos (salvar_ativos d lista) -> l ∈ ativos d \/ dados l ∈ lista.
Proof.
  revert d. induction lista as [| a lista IH]; intros d H; [left; exact H |].
  cbn in H. apply IH in H. destruct H as [H | H].
  - unfold insert_or_replace in H. cbn [ativos] in H.
    apply elem_of_app in H. destruct H as [H | H].
    + left. apply list_elem_of_filter in H. apply H.
    + apply list_elem_of_singleton in H. subst l. right. apply elem_of_cons. left. reflexivity.
  - right. apply elem_of_cons. right. exact H.
Qed.

End DatabaseFacts.

(** ** The binary64 embedding *)

Module F64Facts.
Import Binary64.
Local Open Scope float_scope.

(** For a double that is not a [nan], [p <= 0] says the same as not
    [0 < p]. *)
Lemma leb0_ltb0 (p : float) : is_nan p = false -> (p <=? 0) = negb (0 <? p).
Proof.
  unfold is_nan. rewrite eqb_spec, leb_spec, ltb_spec.
  change (Prim2SF 0) with (S754_zero false).
  destruct (Prim2SF p) as [s | s | | s m e]; cbn.
  - reflexivity.
  - destruct s; reflexivity.
  - discriminate.
  - destruct s; reflexivity.
Qed.

(** The doubles equal to 0 are the two zeros. *)
Lemma is_zero_SF (x : float) :
  is_zero x = true <-> exists s, Prim2SF x = S754_zero s.
Proof.
  unfold is_zero. rewrite eqb_spec. change (Prim2SF zero) with (S754_zero false).
  destruct (Prim2SF x) as [s | s | | s m e]; try destruct s; cbn; split;
    intros H; try discriminate H; try (destruct H; discriminate);
    try reflexivity; eauto.
Qed.

(** A finite double is a zero or has a mantissa. *)
Lemma is_finite_SF (c : float) :
  is_finite c = true ->
  (exists s, Prim2SF c = S754_zero s) \/ (exists s m e, Prim2SF c = S754_finite s m e).
Proof.
  unfold is_finite, is_nan, is_infinity.
  rewrite !eqb_spec, abs_spec. change (Prim2SF infinity) with (S754_infinity false).
  destruct (Prim2SF c) as [s | s | | s m e]; cbn.
  - eauto.
  - destruct s; discriminate.
  - discriminate.
  - eauto 6.
Qed.

Lemma sub_self_zero (c : float) : is_finite c = true -> is_zero (c - c) = true.
Proof.
  intros H. apply is_zero_SF. rewrite sub_spec.
  destruct (is_finite_SF c H) as [[s ->] | (s & m & e & ->)].
  - exists false. destruct s; reflexivity.
  - exists false. unfold SF64sub, SFsub. cbv zeta.
    rewrite Z.sub_diag. reflexivity.
Qed.

Lemma div_zero_finite (z c : float) :
  is_zero z = true -> is_finite c = true -> is_zero c = false ->
  is_zero (z / c) = true.
Proof.
  intros Hz Hc Hn. apply is_zero_SF. apply is_zero_SF in Hz as [sz Hz].
  rewrite div_spec, Hz.
  destruct (is_finite_SF c Hc) as [Hc0 | (s & m & e & ->)].
  - apply is_zero_SF in Hc0. congruence.
  - eexists. reflexivity.
Qed.

Lemma mul_zero_100 (z : float) : is_zero z = true -> is_zero (z * 100) = true.
Proof.
  intros Hz. apply is_zero_SF. apply is_zero_SF in Hz as [sz Hz].
  rewrite mul_spec, Hz. eexists. vm_compute. reflexivity.
Qed.

Lemma div_zero_100 (z : float) : is_zero z = true -> is_zero (z / 100) = true.
Proof.
  intros Hz. apply is_zero_SF. apply is_zero_SF in Hz as [sz Hz].
  rewrite div_spec, Hz. eexists. vm_compute. reflexivity.
Qed.

Lemma rint_zero (z : float) : is_zero z = true -> F64.rint z = z.
Proof.
  intros Hz. apply is_zero_SF in Hz as [sz Hz]. unfold F64.rint. rewrite Hz. reflexivity.
Qed.

Lemma round2_zero (z : float) : is_zero z = true -> is_zero (F64.round2 z) = true.
Proof.
  intros Hz. unfold F64.round2.
  rewrite (rint_zero _ (mul_zero_100 z Hz)).
  apply div_zero_100, mul_zero_100, Hz.
Qed.

(** With prior equal to current, finite and other than 0, the day change
    is 0. *)
Lemma variacao_mesma (c : float) :
  is_finite c = true -> is_zero c = false ->
  is_zero ((c - c) / c * 100) = true.
Proof.
  intros Hc Hn. apply mul_zero_100, div_zero_finite; [| exact Hc | exact Hn].
  apply sub_self_zero, Hc.
Qed.

End F64Facts.

Module Robust64Facts.
Import Binary64 Binary64.RobustDataLoader.
Local Open Scope float_scope.

Lemma yfinance_registro64 (w : world) (agora : Z) (s : string) (r : ativo) :
  _get_yfinance_data w agora s = Ret (Some r) ->
  exists b0 b hist,
    set_session w s = Ret () /\
    history_2d (Ticker w s) = Ret hist /\
    head hist = Some b0 /\ last hist = Some b /\
    preco_atual r = F64.round2 (bar_close b) /\
    dividend_yield r = F64.round2 (_safe_dividend_calc (Ticker w s) (bar_close b)) /\
    ultimo_dividendo r = F64.round2 (_safe_last_dividend (Ticker w s)) /\
    variacao_dia r =
      (let p := if bool_decide (1 < length hist)%nat then bar_open b else bar_close b0 in
       F64.round2 ((bar_close b - p) / p * 100)).
Proof.
  unfold _get_yfinance_data, try_except, mbind, outcome_bind. cbv zeta. intros H.
  destruct (set_session w s) as [[] | e] eqn:Hs; [| discriminate].
  destruct (history_2d (Ticker w s)) as [hist | e] eqn:Hh; [| discriminate].
  destruct hist as [| b0 rest]; [discriminate |].
  destruct (last (b0 :: rest)) as [b |] eqn:Hl.
  2:{ apply last_None in Hl. discriminate. }
  exists b0, b, (b0 :: rest).
  destruct (info (Ticker w s)) as [i | e];
    injection H as <-; repeat split; first [reflexivity | exact Hl].
Qed.

Lemma fallback_registro64 (w : world) (agora : Z) (s : string) :
  exists r, _get_fallback_data w agora s = Ret (Some r) /\
    preco_atual r = _get_mock_price s /\
    dividend_yield r = 6.5 /\
    ultimo_dividendo r = 0.50 /\
    variacao_dia r = 0.0.
Proof. eexists. split; [reflexivity |]. cbn. repeat split. Qed.

Lemma buscar_dados_origem64 (w : world) (agora : Z) (s : string) (r : ativo) :
  buscar_dados w agora s = Ret (Some r) ->
  _get_yfinance_data w agora s = Ret (Some r)
  \/ (_get_yfinance_data w agora s = Ret None /\
      _get_fallback_data w agora s = Ret (Some r)).
Proof.
  unfold buscar_dados, mbind, outcome_bind. intros H.
  destruct (_get_yfinance_data w agora s) as [[d |] | e]; [left | right | discriminate].
  - exact H.
  - split; [reflexivity | exact H].
Qed.

(** Rounding changes no price of the mock table, nor the default. *)
Lemma mock_price_arredondado (s : string) :
  F64.rint (_get_mock_price s * 100) / 100 = _get_mock_price s.
Proof.
  unfold _get_mock_price.
  destruct (mock_prices !! s) as [p |] eqn:Hp; cbn [default]; [| reflexivity].
  apply elem_of_list_to_map_2 in Hp.
  repeat (apply elem_of_cons in Hp; destruct Hp as [Hp | Hp];
          [injection Hp as _ ->; reflexivity |]).
  apply elem_of_nil in Hp. destruct Hp.
Qed.

(** [Series.tail(4)] is the last four entries, or all of them. *)
Lemma tail_ultimos (ds : list float) : Num.tail 4 ds = Spec.ultimos 4 ds.
Proof.
  unfold Num.tail, Spec.ultimos. rewrite take_reverse, reverse_involutive. reflexivity.
Qed.

Lemma tail_length {A} (n : nat) (l : list A) :
  length (Num.tail n l) = Nat.min n (length l).
Proof. unfold Num.tail. rewrite length_drop. lia. Qed.

(** The mean of pandas on one to four payments, none a [nan]. *)
Lemma mean_media (l : list float) :
  Forall (fun d => is_nan d = false) l ->
  (0 < length l <= 4)%nat ->
  F64.mean l = Spec.media l.
Proof.
  intros Hn Hlen.
  destruct l as [| a [| b [| c [| d [| e l]]]]]; cbn [length] in Hlen; try lia;
    repeat match goal with
           | H : Forall _ (_ :: _) |- _ => apply Forall_cons in H as [? H]
           end;
    unfold F64.mean; cbn [fmap list_fmap];
    repeat match goal with
           | H : is_nan _ = false |- _ => rewrite H; revert H
           end;
    intros;
    rewrite ?filter_cons_True by assumption; rewrite filter_nil;
    reflexivity.
Qed.

(** The estimate of [data_loader.py] is the estimate of section 4.2. *)
Lemma safe_dividend_calc_spec (t : ticker) (price : float) (ds : list float) :
  dividends t = Ret ds ->
  is_nan price = false ->
  Forall (fun d => is_nan d = false) ds ->
  _safe_dividend_calc t price = Spec.dividend_yield_sem_arredondar ds price.
Proof.
  intros Hd Hp Hn. unfold _safe_dividend_calc, Spec.dividend_yield_sem_arredondar.
  rewrite Hd. destruct ds as [| d0 ds]; [reflexivity |].
  rewrite bool_decide_eq_true_2 by (cbn; lia).
  rewrite (F64Facts.leb0_ltb0 price Hp).
  destruct (0 <? price); cbn [negb andb]; [| reflexivity].
  cbv zeta. rewrite <- tail_ultimos.
  rewrite (mean_media (Num.tail 4 (d0 :: ds))); [reflexivity | |].
  - unfold Num.tail. apply Forall_drop, Hn.
  - rewrite tail_length. cbn [length]. lia.
Qed.

Lemma safe_dividend_calc_raise (t : ticker) (price : float) :
  (exists e, dividends t = Raise e) -> _safe_dividend_calc t price = 0.
Proof. intros [e He]. unfold _safe_dividend_calc. rewrite He. reflexivity. Qed.

(** Rounding the estimate of section 4.2 gives the yield of section 8. *)
Lemma spec_arredondado (ds : list float) (price : float) :
  Spec.duas_casas (Spec.dividend_yield_sem_arredondar ds price)
  = Spec.dividend_yield_spec ds price.
Proof.
  unfold Spec.dividend_yield_sem_arredondar, Spec.dividend_yield_spec.
  destruct ds; [reflexivity |]. destruct (price <=? 0); reflexivity.
Qed.

Lemma round2_duas_casas (x : float) : F64.round2 x = Spec.duas_casas x.
Proof. reflexivity. Qed.

End Robust64Facts.

Module App64Facts.
Import Binary64 Binary64.DataLoader.
Local Open Scope float_scope.

(** What a return of the body of the [try] of [app.py] says: the history
    was read; either it is empty and the list is as it was, or one record
    is appended, whose numbers are the values computed, as they are. *)
Lemma corpo_registro64 (w : world) (agora : Z) (tp s : string) (ativos l : list ativo) :
  corpo w agora tp s ativos = Ret l ->
  exists hist,
    history_1d (Ticker w s) = Ret hist /\
    ((hist = [] /\ l = ativos) \/
     exists b0 b r,
       head hist = Some b0 /\ last hist = Some b /\ l = ativos ++ [r] /\
       preco_atual r = bar_close b /\
       dividend_yield r = _estimate_dividend_yield (Ticker w s) (bar_close b) /\
       ultimo_dividendo r = _get_ultimo_dividendo (Ticker w s) /\
       variacao_dia r =
         (let p := if bool_decide (1 < length hist)%nat
                   then bar_open b else bar_close b in
          (bar_close b - p) / p * 100)).
Proof.
  unfold corpo, mbind, outcome_bind. cbv zeta. intros H.
  destruct (info (Ticker w s)) as [i | e]; [| discriminate].
  destruct (history_1d (Ticker w s)) as [hist | e]; [| discriminate].
  exists hist. split; [reflexivity |].
  destruct hist as [| b0 rest]; [left; split; [reflexivity | congruence] | right].
  destruct (last (b0 :: rest)) as [b |] eqn:Hl.
  2:{ apply last_None in Hl. discriminate. }
  injection H as <-. eexists b0, b, _. cbn [default].
  repeat split; reflexivity.
Qed.

(** The two estimates are one function. *)
Lemma estimate_safe (t : ticker) (price : float) :
  _estimate_dividend_yield t price = RobustDataLoader._safe_dividend_calc t price.
Proof. reflexivity. Qed.

End App64Facts.

(** * The claims *)

Import Num NumFacts.

(** C1. When the provider returns an empty price history, or none at all,
    the fetch returns the record of the static data: the price of the mock
    table (10.0 for a symbol the table lacks), yield 6.5, last dividend
    0.50, day change 0.0, sector "N/A", and the name of the fallback table
    (the symbol itself when the table lacks it). *)
Theorem C1_empty_history_gives_static_record (w : world) (s : string) :
  history (Ticker w s) = Ret [] \/ (exists e, history (Ticker w s) = Raise e) ->
  exists r,
    RobustDataLoader.buscar_dados w s = Ret (Some r) /\
    preco_atual r = match RobustDataLoader.mock_prices !! s with
                    | Some p => p
                    | None => 10.0
                    end /\
    dividend_yield r = 6.5 /\
    ultimo_dividendo r = 0.50 /\
    variacao_dia r = Finite 0.0 /\
    setor r = "N/A"%string /\
    nome r = match RobustDataLoader.nomes_fallback !! s with
             | Some n => n
             | None => s
             end.
Proof.
  intros H.
  destruct (RobustFacts.fallback_registro w s)
    as (r & Hr & _ & Hn & _ & _ & Hp & Hy & Hu & Hs & Hv).
  exists r. split.
  - unfold RobustDataLoader.buscar_dados, mbind, outcome_bind.
    rewrite (RobustFacts.yfinance_sem_historico w s H). exact Hr.
  - repeat split; assumption.
Qed.

Lemma C1_witness :
  exists r,
    RobustDataLoader.buscar_dados Exemplos.mundo_vazio "XPTO3.SA" = Ret (Some r) /\
    preco_atual r = 10.0 /\
    dividend_yield r = 6.5 /\
    ultimo_dividendo r = 0.50 /\
    variacao_dia r = Finite 0.0 /\
    setor r = "N/A"%string /\
    nome r = "XPTO3.SA"%string.
Proof.
  apply (C1_empty_history_gives_static_record Exemplos.mundo_vazio "XPTO3.SA").
  left. reflexivity.
Defined.

(** C2. The label of the robust loader is computed from the text of the
    symbol, not from the category: the fund MXRF11.SA (category FII) and
    the share TAEE11.SA (category ACAO) are both labelled "Trimestral",
    whatever the provider answers, where the lookup by category of
    [app.py] gives "Mensal" and "Trimestral/Semestral". *)
Theorem C2_label_read_from_symbol_text (w : world) :
  (exists r,
     RobustDataLoader.buscar_dados w "MXRF11.SA" = Ret (Some r) /\
     tipo r = "FII"%string /\
     frequencia_pagamento r = "Trimestral"%string /\
     DataLoader._get_frequencia_pagamento (tipo r) = "Mensal"%string) /\
  (exists r,
     RobustDataLoader.buscar_dados w "TAEE11.SA" = Ret (Some r) /\
     tipo r = "ACAO"%string /\
     frequencia_pagamento r = "Trimestral"%string /\
     DataLoader._get_frequencia_pagamento (tipo r) = "Trimestral/Semestral"%string).
Proof.
  split.
  - destruct (RobustFacts.buscar_dados_total w "MXRF11.SA") as (r & Hr & Ht & Hf).
    exists r. rewrite Ht, Hf. repeat split. exact Hr.
  - destruct (RobustFacts.buscar_dados_total w "TAEE11.SA") as (r & Hr & Ht & Hf).
    exists r. rewrite Ht, Hf. repeat split. exact Hr.
Qed.

(** C3, as the code has it.  The numbers are doubles; the price and the
    dividends are not [nan].  The estimate of either loader is 0 when the
    current price is not positive or the dividend history is empty, and
    otherwise the average of the last four dividends, or of all of them
    when there are fewer, times 12, divided by the current price, times
    100: the function does not round it.  A history that cannot be read
    gives 0.  The record of [data_loader.py] carries this estimate at the
    last close rounded to two decimals, the yield of the specification;
    the record of [app.py] carries it as it is. *)
Theorem C3_dividend_yield_estimate :
  (forall (t : Binary64.ticker) (price : float),
     (forall ds,
        Binary64.dividends t = Ret ds ->
        is_nan price = false ->
        Forall (fun d => is_nan d = false) ds ->
        Binary64.RobustDataLoader._safe_dividend_calc t price
        = Binary64.Spec.dividend_yield_sem_arredondar ds price /\
        Binary64.DataLoader._estimate_dividend_yield t price
        = Binary64.Spec.dividend_yield_sem_arredondar ds price) /\
     ((exists e, Binary64.dividends t = Raise e) ->
      Binary64.RobustDataLoader._safe_dividend_calc t price = 0%float /\
      Binary64.DataLoader._estimate_dividend_yield t price = 0%float)) /\
  (forall (w : Binary64.world) (agora : Z) (s : string) (r : Binary64.ativo),
     Binary64.RobustDataLoader._get_yfinance_data w agora s = Ret (Some r) ->
     exists hist b,
       Binary64.history_2d (Binary64.Ticker w s) = Ret hist /\ last hist = Some b /\
       (forall ds,
          Binary64.dividends (Binary64.Ticker w s) = Ret ds ->
          is_nan (Binary64.bar_close b) = false ->
          Forall (fun d => is_nan d = false) ds ->
          Binary64.dividend_yield r
          = Binary64.Spec.dividend_yield_spec ds (Binary64.bar_close b)) /\
       ((exists e, Binary64.dividends (Binary64.Ticker w s) = Raise e) ->
        Binary64.dividend_yield r = 0%float)) /\
  (forall (w : Binary64.world) (agora : Z) (tp s : string)
          (ativos l : list Binary64.ativo),
     Binary64.DataLoader.corpo w agora tp s ativos = Ret l ->
     l = ativos \/
     exists hist b r,
       Binary64.history_1d (Binary64.Ticker w s) = Ret hist /\ last hist = Some b /\
       l = ativos ++ [r] /\
       (forall ds,
          Binary64.dividends (Binary64.Ticker w s) = Ret ds ->
          is_nan (Binary64.bar_close b) = false ->
          Forall (fun d => is_nan d = false) ds ->
          Binary64.dividend_yield r
          = Binary64.Spec.dividend_yield_sem_arredondar ds (Binary64.bar_close b)) /\
       ((exists e, Binary64.dividends (Binary64.Ticker w s) = Raise e) ->
        Binary64.dividend_yield r = 0%float)).
Proof.
  split; [| split].
  - intros t price. split.
    + intros ds Hd Hp Hn.
      split; [| rewrite (App64Facts.estimate_safe t price)];
        apply Robust64Facts.safe_dividend_calc_spec; assumption.
    + intros He.
      split; [| rewrite (App64Facts.estimate_safe t price)];
        apply Robust64Facts.safe_dividend_calc_raise, He.
  - intros w agora s r H.
    destruct (Robust64Facts.yfinance_registro64 w agora s r H)
      as (b0 & b & hist & _ & Hh & _ & Hl & _ & Hy & _).
    exists hist, b. split; [exact Hh |]. split; [exact Hl |]. split.
    + intros ds Hd Hp Hn. rewrite Hy, Robust64Facts.round2_duas_casas.
      rewrite (Robust64Facts.safe_dividend_calc_spec _ _ ds Hd Hp Hn).
      apply Robust64Facts.spec_arredondado.
    + intros He. rewrite Hy, (Robust64Facts.safe_dividend_calc_raise _ _ He).
      reflexivity.
  - intros w agora tp s ativos l H.
    destruct (App64Facts.corpo_registro64 w agora tp s ativos l H)
      as (hist & Hh & [[_ Hl] | (b0 & b & r & _ & Hl & -> & _ & Hy & _)]);
      [left; exact Hl | right].
    exists hist, b, r. split; [exact Hh |]. split; [exact Hl |].
    split; [reflexivity |]. rewrite Hy, (App64Facts.estimate_safe (Binary64.Ticker w s)).
    split.
    + intros ds Hd Hp Hn. apply Robust64Facts.safe_dividend_calc_spec; assumption.
    + intros He. apply Robust64Facts.safe_dividend_calc_raise, He.
Qed.

Lemma C3_witness :
  (* the estimate of either loader, at five dividends *)
  (Binary64.RobustDataLoader._safe_dividend_calc
     (Binary64.Ticker Binary64.Exemplos.mundo_vale "VALE3.SA") 183
   = Binary64.Spec.dividend_yield_sem_arredondar Binary64.Exemplos.dividendos_vale 183
   /\ Binary64.DataLoader._estimate_dividend_yield
        (Binary64.Ticker Binary64.Exemplos.mundo_vale "VALE3.SA") 183
      = Binary64.Spec.dividend_yield_sem_arredondar Binary64.Exemplos.dividendos_vale 183)
  /\ Binary64.Spec.dividend_yield_sem_arredondar Binary64.Exemplos.dividendos_vale 183
     = ((17 + 25 + 34.5 + 8.5) / 4 * 12 / 183 * 100)%float
  (* at a price below 0 *)
  /\ (Binary64.RobustDataLoader._safe_dividend_calc
        (Binary64.Ticker Binary64.Exemplos.mundo_vale "VALE3.SA") (-1)
      = Binary64.Spec.dividend_yield_sem_arredondar Binary64.Exemplos.dividendos_vale (-1)
      /\ Binary64.DataLoader._estimate_dividend_yield
           (Binary64.Ticker Binary64.Exemplos.mundo_vale "VALE3.SA") (-1)
         = Binary64.Spec.dividend_yield_sem_arredondar
             Binary64.Exemplos.dividendos_vale (-1))
  /\ Binary64.Spec.dividend_yield_sem_arredondar Binary64.Exemplos.dividendos_vale (-1)
     = 0%float
  (* the record of data_loader.py: 139.34, and 31.87 for four dividends of
     17 at a close of 640 *)
  /\ Binary64.dividend_yield Binary64.Exemplos.robusto_vale
     = Binary64.Spec.dividend_yield_spec Binary64.Exemplos.dividendos_vale 183
  /\ Binary64.Spec.dividend_yield_spec Binary64.Exemplos.dividendos_vale 183
     = 139.34%float
  /\ Binary64.dividend_yield Binary64.Exemplos.robusto_petr
     = Binary64.Spec.dividend_yield_spec [17; 17; 17; 17]%float 640
  /\ Binary64.Spec.dividend_yield_spec [17; 17; 17; 17]%float 640 = 31.87%float
  (* the record of app.py *)
  /\ Binary64.dividend_yield Binary64.Exemplos.app_vale
     = Binary64.Spec.dividend_yield_sem_arredondar Binary64.Exemplos.dividendos_vale 183.
Proof.
  assert (Hn : forall l : list float,
             forallb (fun d => negb (is_nan d)) l = true ->
             Forall (fun d => is_nan d = false) l).
  { intros l H. apply Forall_forall. intros d Hd.
    rewrite forallb_forall in H. apply negb_true_iff, H, list_elem_of_In, Hd. }
  destruct C3_dividend_yield_estimate as (Hf & Hr & Ha).
  repeat apply conj.
  - apply (proj1 (Hf (Binary64.Ticker Binary64.Exemplos.mundo_vale "VALE3.SA")
                     183%float) Binary64.Exemplos.dividendos_vale eq_refl eq_refl).
    apply Hn. reflexivity.
  - apply (proj1 (Hf (Binary64.Ticker Binary64.Exemplos.mundo_vale "VALE3.SA")
                     183%float) Binary64.Exemplos.dividendos_vale eq_refl eq_refl).
    apply Hn. reflexivity.
  - vm_compute. reflexivity.
  - apply (proj1 (Hf (Binary64.Ticker Binary64.Exemplos.mundo_vale "VALE3.SA")
                     (-1)%float) Binary64.Exemplos.dividendos_vale eq_refl eq_refl).
    apply Hn. reflexivity.
  - apply (proj1 (Hf (Binary64.Ticker Binary64.Exemplos.mundo_vale "VALE3.SA")
                     (-1)%float) Binary64.Exemplos.dividendos_vale eq_refl eq_refl).
    apply Hn. reflexivity.
  - vm_compute. reflexivity.
  - destruct (Hr Binary64.Exemplos.mundo_vale 0%Z "VALE3.SA"
                Binary64.Exemplos.robusto_vale) as (hist & b & Hh & Hl & Hds & _).
    { vm_compute. reflexivity. }
    injection Hh as <-. injection Hl as <-.
    apply (Hds Binary64.Exemplos.dividendos_vale eq_refl eq_refl).
    apply Hn. reflexivity.
  - vm_compute. reflexivity.
  - destruct (Hr Binary64.Exemplos.mundo_petr 0%Z "PETR4.SA"
                Binary64.Exemplos.robusto_petr) as (hist & b & Hh & Hl & Hds & _).
    { vm_compute. reflexivity. }
    injection Hh as <-. injection Hl as <-.
    apply (Hds [17; 17; 17; 17]%float eq_refl eq_refl).
    apply Hn. reflexivity.
  - vm_compute. reflexivity.
  - destruct (Ha Binary64.Exemplos.mundo_vale 0%Z "ACAO" "VALE3.SA" []
                [Binary64.Exemplos.app_vale])
      as [Hvazio | (hist & b & r & Hh & Hl & Hr' & Hds & _)].
    { vm_compute. reflexivity. }
    { discriminate Hvazio. }
    injection Hh as <-. injection Hl as <-. injection Hr' as <-.
    apply (Hds Binary64.Exemplos.dividendos_vale eq_refl eq_refl).
    apply Hn. reflexivity.
Defined.

(** C3 fails on the record of [app.py], and on the value either function
    returns: with dividends 9, 17, 25, 34.5 and 8.5 and a close of 183
    the yield is 139.34426229508196, and the yield of the specification is
    139.34. *)
Lemma C3_counterexample :
  Binary64.DataLoader.corpo Binary64.Exemplos.mundo_vale 0 "ACAO" "VALE3.SA" []
  = Ret [Binary64.Exemplos.app_vale] /\
  Binary64.preco_atual Binary64.Exemplos.app_vale = 183%float /\
  Binary64.dividend_yield Binary64.Exemplos.app_vale = 139.34426229508196%float /\
  Binary64.DataLoader._estimate_dividend_yield
    (Binary64.Ticker Binary64.Exemplos.mundo_vale "VALE3.SA") 183
  = 139.34426229508196%float /\
  Binary64.RobustDataLoader._safe_dividend_calc
    (Binary64.Ticker Binary64.Exemplos.mundo_vale "VALE3.SA") 183
  = 139.34426229508196%float /\
  Binary64.Spec.dividend_yield_spec Binary64.Exemplos.dividendos_vale 183
  = 139.34%float /\
  (Binary64.dividend_yield Binary64.Exemplos.app_vale
   =? Binary64.Spec.dividend_yield_spec Binary64.Exemplos.dividendos_vale 183)%float
  = false.
Proof. repeat apply conj; vm_compute; reflexivity. Qed.




(** C5. An exception raised while one symbol is fetched stops at the
    [except] of the loop: the symbol is skipped, the symbols after it are
    still fetched, and the cycle returns its list whatever the provider
    does.  This holds for the loop of [data_loader.py] and for the loop of
    [app.py]. *)
Theorem C5_symbol_exception_is_skipped :
  (forall w : world, exists l, RobustDataLoader.get_ativos_info w = Ret l) /\
  (forall (w : world) (pre post : list string) (s e : string) (a0 a : list ativo),
     RobustDataLoader.corpo w s a0 = Raise e ->
     RobustDataLoader.para_simbolos w (pre ++ s :: post) a
     = RobustDataLoader.para_simbolos w (pre ++ post) a) /\
  (forall w : world, exists l, DataLoader.get_ativos_info w = Ret l) /\
  (forall (w : world) (t : string) (pre post : list string) (s e : string)
          (a0 a : list ativo),
     DataLoader.corpo w t s a0 = Raise e ->
     DataLoader.para_simbolos w t (pre ++ s :: post) a
     = DataLoader.para_simbolos w t (pre ++ post) a).
Proof.
  split; [| split; [| split]].
  - intros w. apply LoopFacts.para_tipos_total.
  - intros w pre post s e a0 a. apply LoopFacts.para_simbolos_skip.
  - intros w. apply AppLoopFacts.app_para_tipos_total.
  - intros w t pre post s e a0 a. apply AppLoopFacts.app_para_simbolos_skip.
Qed.

Lemma C5_witness :
  RobustDataLoader.para_simbolos Exemplos.mundo_falhas
    (["MXRF11.SA"] ++ "HGLG11.SA" :: ["KNRI11.SA"]) []
  = RobustDataLoader.para_simbolos Exemplos.mundo_falhas
      (["MXRF11.SA"] ++ ["KNRI11.SA"]) []
  /\
  DataLoader.para_simbolos Exemplos.mundo_falhas "ACAO"
    (["VALE3.SA"] ++ "PETR4.SA" :: ["BBAS3.SA"]) []
  = DataLoader.para_simbolos Exemplos.mundo_falhas "ACAO"
      (["VALE3.SA"] ++ ["BBAS3.SA"]) [].
Proof.
  split.
  - apply (proj1 (proj2 C5_symbol_exception_is_skipped) Exemplos.mundo_falhas
             ["MXRF11.SA"%string] ["KNRI11.SA"%string] "HGLG11.SA"%string
             "session"%string [] []).
    reflexivity.
  - apply (proj2 (proj2 (proj2 C5_symbol_exception_is_skipped)) Exemplos.mundo_falhas
             "ACAO"%string ["VALE3.SA"%string] ["BBAS3.SA"%string] "PETR4.SA"%string
             "timeout"%string [] []).
    reflexivity.
Defined.



(** C7, as the code has it.  The numbers are doubles.  Current is the last
    close; prior is the last open when the history has two bars or more,
    and the close of the one bar otherwise.  The record of
    [data_loader.py] carries (current - prior) / prior * 100 rounded to
    two decimals; the record of [app.py] carries the quotient as it is.
    With one bar whose close is finite and other than 0, the day change of
    either record is 0. *)
Theorem C7_day_change_of_each_loader :
  (forall (w : Binary64.world) (agora : Z) (s : string) (r : Binary64.ativo),
     Binary64.RobustDataLoader._get_yfinance_data w agora s = Ret (Some r) ->
     exists hist b,
       Binary64.history_2d (Binary64.Ticker w s) = Ret hist /\ last hist = Some b /\
       ((1 < length hist)%nat ->
        Binary64.variacao_dia r
        = Binary64.Spec.duas_casas
            ((Binary64.bar_close b - Binary64.bar_open b)
             / Binary64.bar_open b * 100)%float) /\
       (length hist = 1%nat ->
        hist = [b] /\
        Binary64.variacao_dia r
        = Binary64.Spec.duas_casas
            ((Binary64.bar_close b - Binary64.bar_close b)
             / Binary64.bar_close b * 100)%float /\
        (is_finite (Binary64.bar_close b) = true ->
         is_zero (Binary64.bar_close b) = false ->
         is_zero (Binary64.variacao_dia r) = true))) /\
  (forall (w : Binary64.world) (agora : Z) (tp s : string)
          (ativos l : list Binary64.ativo),
     Binary64.DataLoader.corpo w agora tp s ativos = Ret l ->
     l = ativos \/
     exists hist b r,
       Binary64.history_1d (Binary64.Ticker w s) = Ret hist /\ last hist = Some b /\
       l = ativos ++ [r] /\
       ((1 < length hist)%nat ->
        Binary64.variacao_dia r
        = ((Binary64.bar_close b - Binary64.bar_open b)
           / Binary64.bar_open b * 100)%float) /\
       (length hist = 1%nat ->
        hist = [b] /\
        Binary64.variacao_dia r
        = ((Binary64.bar_close b - Binary64.bar_close b)
           / Binary64.bar_close b * 100)%float /\
        (is_finite (Binary64.bar_close b) = true ->
         is_zero (Binary64.bar_close b) = false ->
         is_zero (Binary64.variacao_dia r) = true))).
Proof.
  split.
  - intros w agora s r H.
    destruct (Robust64Facts.yfinance_registro64 w agora s r H)
      as (b0 & b & hist & _ & Hh & Hhd & Hl & _ & _ & _ & Hv).
    cbv zeta in Hv. rewrite Robust64Facts.round2_duas_casas in Hv.
    exists hist, b. split; [exact Hh |]. split; [exact Hl |]. split.
    + intros Hlen. rewrite Hv, bool_decide_eq_true_2 by exact Hlen. reflexivity.
    + intros Hlen. destruct hist as [| x [| y rest]]; try discriminate Hlen.
      cbn in Hhd, Hl. injection Hhd as ->. injection Hl as ->.
      rewrite bool_decide_eq_false_2 in Hv by (cbn; lia).
      split; [reflexivity |]. split; [exact Hv |].
      intros Hf Hz. rewrite Hv. apply F64Facts.round2_zero.
      apply F64Facts.variacao_mesma; assumption.
  - intros w agora tp s ativos l H.
    destruct (App64Facts.corpo_registro64 w agora tp s ativos l H)
      as (hist & Hh & [[_ Hl] | (b0 & b & r & Hhd & Hl & -> & _ & _ & _ & Hv)]);
      [left; exact Hl | right].
    cbv zeta in Hv.
    exists hist, b, r. split; [exact Hh |]. split; [exact Hl |].
    split; [reflexivity |]. split.
    + intros Hlen. rewrite Hv, bool_decide_eq_true_2 by exact Hlen. reflexivity.
    + intros Hlen. destruct hist as [| x [| y rest]]; try discriminate Hlen.
      cbn in Hl. injection Hl as ->.
      rewrite bool_decide_eq_false_2 in Hv by (cbn; lia).
      split; [reflexivity |]. split; [exact Hv |].
      intros Hf Hz. rewrite Hv. apply F64Facts.variacao_mesma; assumption.
Qed.

Lemma C7_witness :
  (* data_loader.py, two bars: open 160, close 183, day change 14.37 *)
  Binary64.variacao_dia Binary64.Exemplos.robusto_vale
  = Binary64.Spec.duas_casas ((183 - 160) / 160 * 100)%float
  /\ Binary64.Spec.duas_casas ((183 - 160) / 160 * 100)%float = 14.37%float
  (* data_loader.py, one bar closing at 2.675 *)
  /\ is_zero (Binary64.variacao_dia Binary64.Exemplos.robusto_itub) = true
  (* app.py, two bars: open 638, close 640 *)
  /\ Binary64.variacao_dia Binary64.Exemplos.app_petr = ((640 - 638) / 638 * 100)%float
  /\ ((640 - 638) / 638 * 100 = 0.31347962382445138)%float
  (* app.py, one bar closing at 2.675 *)
  /\ is_zero (Binary64.variacao_dia Binary64.Exemplos.app_itub) = true.
Proof.
  destruct C7_day_change_of_each_loader as (Hr & Ha).
  repeat apply conj.
  - destruct (Hr Binary64.Exemplos.mundo_vale 0%Z "VALE3.SA"
                Binary64.Exemplos.robusto_vale) as (hist & b & Hh & Hl & H2 & _).
    { vm_compute. reflexivity. }
    injection Hh as <-. injection Hl as <-.
    apply H2. cbn. lia.
  - vm_compute. reflexivity.
  - destruct (Hr Binary64.Exemplos.mundo_itub 0%Z "ITUB4.SA"
                Binary64.Exemplos.robusto_itub) as (hist & b & Hh & Hl & _ & H1).
    { vm_compute. reflexivity. }
    injection Hh as <-. injection Hl as <-.
    apply (H1 eq_refl); reflexivity.
  - destruct (Ha Binary64.Exemplos.mundo_petr 0%Z "ACAO" "PETR4.SA" []
                [Binary64.Exemplos.app_petr])
      as [Hvazio | (hist & b & r & Hh & Hl & Hr' & H2 & _)].
    { vm_compute. reflexivity. }
    { discriminate Hvazio. }
    injection Hh as <-. injection Hl as <-. injection Hr' as <-.
    apply H2. cbn. lia.
  - vm_compute. reflexivity.
  - destruct (Ha Binary64.Exemplos.mundo_itub 0%Z "ACAO" "ITUB4.SA" []
                [Binary64.Exemplos.app_itub])
      as [Hvazio | (hist & b & r & Hh & Hl & Hr' & _ & H1)].
    { vm_compute. reflexivity. }
    { discriminate Hvazio. }
    injection Hh as <-. injection Hl as <-. injection Hr' as <-.
    apply (H1 eq_refl); reflexivity.
Defined.

(** C7 fails on the record of [data_loader.py]: the last bar opens at 160
    and closes at 183, (183 - 160) / 160 * 100 is 14.374999999999998, and
    the record carries 14.37. *)
Lemma C7_counterexample :
  Binary64.RobustDataLoader._get_yfinance_data
    Binary64.Exemplos.mundo_vale 0 "VALE3.SA"
  = Ret (Some Binary64.Exemplos.robusto_vale) /\
  Binary64.variacao_dia Binary64.Exemplos.robusto_vale = 14.37%float /\
  ((183 - 160) / 160 * 100 = 14.374999999999998)%float /\
  (Binary64.variacao_dia Binary64.Exemplos.robusto_vale
   =? (183 - 160) / 160 * 100)%float = false.
Proof. repeat apply conj; vm_compute; reflexivity. Qed.

(** C8, as the code has it.  The numbers are doubles, and a double is
    rounded to two decimals by scaling it by 100, taking the nearest
    integer and scaling back.  On the provider path of [data_loader.py]
    the price of the record is the last close so rounded, the yield is the
    estimate so rounded, and the last dividend is the last payment so
    rounded.  On the path of the static data the three fields are the mock
    price, 6.5 and 0.5, which the rounding leaves as they are.  The record
    of [app.py] carries the last close, the estimate and the last payment
    as they are. *)
Theorem C8_fields_rounded_by_robust_loader :
  (forall (w : Binary64.world) (agora : Z) (s : string) (r : Binary64.ativo),
     Binary64.RobustDataLoader.buscar_dados w agora s = Ret (Some r) ->
     (exists hist b,
        Binary64.history_2d (Binary64.Ticker w s) = Ret hist /\ last hist = Some b /\
        Binary64.preco_atual r = Binary64.Spec.duas_casas (Binary64.bar_close b) /\
        Binary64.dividend_yield r
        = Binary64.Spec.duas_casas
            (Binary64.RobustDataLoader._safe_dividend_calc
               (Binary64.Ticker w s) (Binary64.bar_close b)) /\
        Binary64.ultimo_dividendo r
        = Binary64.Spec.duas_casas
            (Binary64.RobustDataLoader._safe_last_dividend (Binary64.Ticker w s)))
     \/ (Binary64.RobustDataLoader._get_yfinance_data w agora s = Ret None /\
         Binary64.preco_atual r = Binary64.RobustDataLoader._get_mock_price s /\
         Binary64.dividend_yield r = 6.5%float /\
         Binary64.ultimo_dividendo r = 0.5%float /\
         Binary64.Spec.duas_casas (Binary64.preco_atual r) = Binary64.preco_atual r /\
         Binary64.Spec.duas_casas (Binary64.dividend_yield r)
         = Binary64.dividend_yield r /\
         Binary64.Spec.duas_casas (Binary64.ultimo_dividendo r)
         = Binary64.ultimo_dividendo r)) /\
  (forall (w : Binary64.world) (agora : Z) (tp s : string)
          (ativos l : list Binary64.ativo),
     Binary64.DataLoader.corpo w agora tp s ativos = Ret l ->
     l = ativos \/
     exists hist b r,
       Binary64.history_1d (Binary64.Ticker w s) = Ret hist /\ last hist = Some b /\
       l = ativos ++ [r] /\
       Binary64.preco_atual r = Binary64.bar_close b /\
       Binary64.dividend_yield r
       = Binary64.DataLoader._estimate_dividend_yield
           (Binary64.Ticker w s) (Binary64.bar_close b) /\
       Binary64.ultimo_dividendo r
       = Binary64.DataLoader._get_ultimo_dividendo (Binary64.Ticker w s)).
Proof.
  split.
  - intros w agora s r H.
    destruct (Robust64Facts.buscar_dados_origem64 w agora s r H) as [Hy | [Hn Hf]].
    + left.
      destruct (Robust64Facts.yfinance_registro64 w agora s r Hy)
        as (b0 & b & hist & _ & Hh & _ & Hl & Hp & Hd & Hu & _).
      exists hist, b. repeat split; assumption.
    + right.
      destruct (Robust64Facts.fallback_registro64 w agora s)
        as (r' & Hr & Hp & Hd & Hu & _).
      rewrite Hr in Hf. injection Hf as <-.
      split; [exact Hn |]. rewrite Hp, Hd, Hu.
      repeat split. apply Robust64Facts.mock_price_arredondado.
  - intros w agora tp s ativos l H.
    destruct (App64Facts.corpo_registro64 w agora tp s ativos l H)
      as (hist & Hh & [[_ Hl] | (b0 & b & r & _ & Hl & -> & Hp & Hd & Hu & _)]);
      [left; exact Hl | right].
    exists hist, b, r. repeat split; assumption.
Qed.

Lemma C8_witness :
  (* provider path: a close of 2.675 and a dividend of 1.015 *)
  (Binary64.preco_atual Binary64.Exemplos.robusto_itub
   = Binary64.Spec.duas_casas 2.675
   /\ Binary64.dividend_yield Binary64.Exemplos.robusto_itub
      = Binary64.Spec.duas_casas (1.015 / 1 * 12 / 2.675 * 100)
   /\ Binary64.ultimo_dividendo Binary64.Exemplos.robusto_itub
      = Binary64.Spec.duas_casas 1.015)
  /\ (Binary64.Spec.duas_casas 2.675 = 2.68%float
      /\ Binary64.Spec.duas_casas (1.015 / 1 * 12 / 2.675 * 100) = 455.33%float
      /\ Binary64.Spec.duas_casas 1.015 = 1.01%float)
  (* path of the static data *)
  /\ (Binary64.preco_atual Binary64.Exemplos.estatico_mxrf = 10.25%float
      /\ Binary64.dividend_yield Binary64.Exemplos.estatico_mxrf = 6.5%float
      /\ Binary64.ultimo_dividendo Binary64.Exemplos.estatico_mxrf = 0.5%float
      /\ Binary64.Spec.duas_casas (Binary64.preco_atual Binary64.Exemplos.estatico_mxrf)
         = Binary64.preco_atual Binary64.Exemplos.estatico_mxrf)
  (* app.py *)
  /\ (Binary64.preco_atual Binary64.Exemplos.app_itub = 2.675%float
      /\ Binary64.dividend_yield Binary64.Exemplos.app_itub
         = (1.015 / 1 * 12 / 2.675 * 100)%float
      /\ Binary64.ultimo_dividendo Binary64.Exemplos.app_itub = 1.015%float).
Proof.
  destruct C8_fields_rounded_by_robust_loader as (Hr & Ha).
  repeat apply conj.
  1-3: destruct (Hr Binary64.Exemplos.mundo_itub 0%Z "ITUB4.SA"
                   Binary64.Exemplos.robusto_itub)
         as [(hist & b & Hh & Hl & Hp & Hd & Hu) | (Hnone & _)];
       [vm_compute; reflexivity | | vm_compute in Hnone; discriminate Hnone];
       injection Hh as <-; injection Hl as <-.
  - exact Hp.
  - exact Hd.
  - exact Hu.
  - vm_compute. reflexivity.
  - vm_compute. reflexivity.
  - vm_compute. reflexivity.
  - destruct (Hr Binary64.Exemplos.mundo_itub 0%Z "MXRF11.SA"
                Binary64.Exemplos.estatico_mxrf)
      as [(hist & b & Hh & Hl & _) | (_ & Hp & _)];
      [vm_compute; reflexivity | | exact Hp].
    injection Hh as <-. discriminate Hl.
  - destruct (Hr Binary64.Exemplos.mundo_itub 0%Z "MXRF11.SA"
                Binary64.Exemplos.estatico_mxrf)
      as [(hist & b & Hh & Hl & _) | (_ & _ & Hd & _)];
      [vm_compute; reflexivity | | exact Hd].
    injection Hh as <-. discriminate Hl.
  - destruct (Hr Binary64.Exemplos.mundo_itub 0%Z "MXRF11.SA"
                Binary64.Exemplos.estatico_mxrf)
      as [(hist & b & Hh & Hl & _) | (_ & _ & _ & Hu & _)];
      [vm_compute; reflexivity | | exact Hu].
    injection Hh as <-. discriminate Hl.
  - destruct (Hr Binary64.Exemplos.mundo_itub 0%Z "MXRF11.SA"
                Binary64.Exemplos.estatico_mxrf)
      as [(hist & b & Hh & Hl & _) | (_ & _ & _ & _ & Hf & _)];
      [vm_compute; reflexivity | | exact Hf].
    injection Hh as <-. discriminate Hl.
  - destruct (Ha Binary64.Exemplos.mundo_itub 0%Z "ACAO" "ITUB4.SA" []
                [Binary64.Exemplos.app_itub])
      as [Hvazio | (hist & b & r & Hh & Hl & Hr' & Hp & _)].
    { vm_compute. reflexivity. }
    { discriminate Hvazio. }
    injection Hh as <-. injection Hl as <-. injection Hr' as <-. exact Hp.
  - destruct (Ha Binary64.Exemplos.mundo_itub 0%Z "ACAO" "ITUB4.SA" []
                [Binary64.Exemplos.app_itub])
      as [Hvazio | (hist & b & r & Hh & Hl & Hr' & _ & Hd & _)].
    { vm_compute. reflexivity. }
    { discriminate Hvazio. }
    injection Hh as <-. injection Hl as <-. injection Hr' as <-. exact Hd.
  - destruct (Ha Binary64.Exemplos.mundo_itub 0%Z "ACAO" "ITUB4.SA" []
                [Binary64.Exemplos.app_itub])
      as [Hvazio | (hist & b & r & Hh & Hl & Hr' & _ & _ & Hu)].
    { vm_compute. reflexivity. }
    { discriminate Hvazio. }
    injection Hh as <-. injection Hl as <-. injection Hr' as <-. exact Hu.
Defined.

(** C8 fails on the record of [app.py]: with a close of 2.675 and a
    dividend of 1.015 the record carries 2.675, 455.32710280373834 and
    1.015, and rounding to two decimals gives 2.68, 455.33 and 1.01. *)
Lemma C8_counterexample :
  Binary64.DataLoader.corpo Binary64.Exemplos.mundo_itub 0 "ACAO" "ITUB4.SA" []
  = Ret [Binary64.Exemplos.app_itub] /\
  (Binary64.preco_atual Binary64.Exemplos.app_itub = 2.675%float /\
   Binary64.Spec.duas_casas (Binary64.preco_atual Binary64.Exemplos.app_itub)
   = 2.68%float /\
   (Binary64.preco_atual Binary64.Exemplos.app_itub =? 2.68)%float = false) /\
  (Binary64.dividend_yield Binary64.Exemplos.app_itub = 455.32710280373834%float /\
   Binary64.Spec.duas_casas (Binary64.dividend_yield Binary64.Exemplos.app_itub)
   = 455.33%float /\
   (Binary64.dividend_yield Binary64.Exemplos.app_itub =? 455.33)%float = false) /\
  (Binary64.ultimo_dividendo Binary64.Exemplos.app_itub = 1.015%float /\
   Binary64.Spec.duas_casas (Binary64.ultimo_dividendo Binary64.Exemplos.app_itub)
   = 1.01%float /\
   (Binary64.ultimo_dividendo Binary64.Exemplos.app_itub =? 1.01)%float = false).
Proof. repeat apply conj; vm_compute; reflexivity. Qed.

(** C9. Saving a record twice, or two records of one symbol one after the
    other, in one save or in two, leaves one row for that symbol, the row
    of the last record written; a read returns that row and no other for
    the symbol. *)
Theorem C9_upsert_keeps_latest_row (d : Database.db) (r1 r2 : ativo) :
  simbolo r1 = simbolo r2 ->
  exists i,
    let l := {| Database.id := i; Database.dados := r2 |} in
    Database.linhas_de (simbolo r1) (Database.salvar_ativos d [r1; r2]) = [l] /\
    Database.linhas_de (simbolo r1)
      (Database.salvar_ativos (Database.salvar_ativos d [r1]) [r2]) = [l] /\
    filter (fun x => simbolo (Database.dados x) = simbolo r1)
      (Database.carregar_ativos (Database.salvar_ativos d [r1; r2])) = [l].
Proof.
  intros ->.
  destruct (DatabaseFacts.linhas_de_salvar_ultimo d [r1] [] r2 (Forall_nil_2 _)) as [i Hi].
  exists i. cbv zeta. split; [exact Hi |]. split; [exact Hi |].
  apply DatabaseFacts.carregar_linhas_de. exact Hi.
Qed.

Lemma C9_witness :
  exists i,
    let r := Exemplos.registro "VALE3" 68.90 7.1 in
    let l := {| Database.id := i; Database.dados := r |} in
    Database.linhas_de "VALE3" (Database.salvar_ativos Exemplos.loja [r; r]) = [l] /\
    Database.linhas_de "VALE3"
      (Database.salvar_ativos (Database.salvar_ativos Exemplos.loja [r]) [r]) = [l] /\
    filter (fun x => simbolo (Database.dados x) = "VALE3"%string)
      (Database.carregar_ativos (Database.salvar_ativos Exemplos.loja [r; r])) = [l].
Proof.
  apply (C9_upsert_keeps_latest_row Exemplos.loja
           (Exemplos.registro "VALE3" 68.90 7.1) (Exemplos.registro "VALE3" 68.90 7.1)).
  reflexivity.
Defined.

(** C10. A save touches the rows of the symbols of its list and no other:
    a stored row whose symbol is not in the list is still stored, as it
    was, after the save, and a read after the save returns it; the rows of
    such symbols are the same before and after, in the same order; and
    every row found after the save was there before or holds a record of
    the list. *)
Theorem C10_save_leaves_other_symbols (d : Database.db) (lista : list ativo) :
  (forall l : Database.linha,
     l ∈ Database.ativos d ->
     simbolo (Database.dados l) ∉ simbolo <$> lista ->
     l ∈ Database.ativos (Database.salvar_ativos d lista) /\
     l ∈ Database.carregar_ativos (Database.salvar_ativos d lista)) /\
  filter (fun l => simbolo (Database.dados l) ∉ simbolo <$> lista)
    (Database.ativos (Database.salvar_ativos d lista))
  = filter (fun l => simbolo (Database.dados l) ∉ simbolo <$> lista)
      (Database.ativos d) /\
  (forall l : Database.linha,
     l ∈ Database.ativos (Database.salvar_ativos d lista) ->
     l ∈ Database.ativos d \/ Database.dados l ∈ lista).
Proof.
  split; [| split].
  - intros l Hl Hs.
    assert (H : l ∈ Database.ativos (Database.salvar_ativos d lista)).
    { assert (Hf : l ∈ filter (fun l => simbolo (Database.dados l) ∉ simbolo <$> lista)
                        (Database.ativos d))
        by (apply list_elem_of_filter; split; assumption).
      rewrite <- DatabaseFacts.salvar_ativos_frame in Hf.
      apply list_elem_of_filter in Hf. apply Hf. }
    split; [exact H |].
    rewrite (DatabaseFacts.carregar_ativos_perm _). exact H.
  - apply DatabaseFacts.salvar_ativos_frame.
  - intros l. apply DatabaseFacts.salvar_ativos_origem.
Qed.

Lemma C10_witness :
  let l := {| Database.id := 1; Database.dados := Exemplos.registro "PETR4" 37.50 6.5 |} in
  let lista := [Exemplos.registro "VALE3" 70.00 7.0] in
  (l ∈ Database.ativos (Database.salvar_ativos Exemplos.loja lista) /\
   l ∈ Database.carregar_ativos (Database.salvar_ativos Exemplos.loja lista)) /\
  (l ∈ Database.ativos Exemplos.loja \/ Database.dados l ∈ lista).
Proof.
  cbv zeta. split.
  - apply (proj1 (C10_save_leaves_other_symbols Exemplos.loja
                    [Exemplos.registro "VALE3" 70.00 7.0])).
    + vm_compute. apply list_elem_of_here.
    + vm_compute. intros H. apply elem_of_cons in H.
      destruct H as [H | H]; [discriminate H | apply elem_of_nil in H; exact H].
  - apply (proj2 (proj2 (C10_save_leaves_other_symbols Exemplos.loja
                           [Exemplos.registro "VALE3" 70.00 7.0]))).
    vm_compute. apply list_elem_of_here.
Defined.

(** * Further properties *)

(** ** What a cycle returns *)

Module CicloFacts.

Lemma buscar_dados_simbolo (w : world) (s : string) (r : ativo) :
  RobustDataLoader.buscar_dados w s = Ret (Some r) ->
  simbolo r = Str.replace ".SA" "" s.
Proof.
  intros H. destruct (RobustFacts.buscar_dados_origem w s r H) as [Hy | [_ Hf]].
  - destruct (RobustFacts.yfinance_registro w s r Hy)
      as (b0 & b & hist & _ & _ & _ & _ & Hs & _).
    exact Hs.
  - destruct (RobustFacts.fallback_registro w s) as (r' & Hr & Hs & _).
    rewrite Hr in Hf. injection Hf as <-. exact Hs.
Qed.

Lemma robust_corpo_ret (w : world) (s : string) (a : list ativo) :
  new_session w s = Ret () ->
  exists r, RobustDataLoader.buscar_dados w s = Ret (Some r)
            /\ RobustDataLoader.corpo w s a = Ret (a ++ [r]).
Proof.
  intros Hs. destruct (RobustFacts.buscar_dados_total w s) as (r & Hr & _).
  exists r. split; [exact Hr |].
  unfold RobustDataLoader.corpo, mbind, outcome_bind. rewrite Hs, Hr. reflexivity.
Qed.

Lemma robust_para_simbolos_registros (w : world) (l : list string) (a : list ativo) :
  exists rs,
    RobustDataLoader.para_simbolos w l a = Ret (a ++ rs) /\
    Forall2 (fun s r => RobustDataLoader.buscar_dados w s = Ret (Some r))
      (filter (fun s => retornou (new_session w s)) l) rs.
Proof.
  revert a. induction l as [| s l IH]; intros a.
  - exists []. rewrite app_nil_r. split; [reflexivity | constructor].
  - rewrite LoopFacts.para_simbolos_cons.
    destruct (new_session w s) as [[] | e] eqn:Hs.
    + destruct (robust_corpo_ret w s a Hs) as (r & Hr & ->).
      destruct (IH (a ++ [r])) as (rs & -> & HF).
      exists (r :: rs). rewrite <- app_assoc. split; [reflexivity |].
      rewrite filter_cons_True by (rewrite Hs; exact I).
      constructor; assumption.
    + rewrite (proj2 (LoopFacts.corpo_raise w s a e) Hs).
      destruct (IH a) as (rs & -> & HF).
      exists rs. split; [reflexivity |].
      rewrite filter_cons_False by (rewrite Hs; exact id). exact HF.
Qed.

Lemma robust_para_tipos_registros (w : world) (items : list (string * list string))
    (a : list ativo) :
  exists rs,
    RobustDataLoader.para_tipos w items a = Ret (a ++ rs) /\
    Forall2 (fun s r => RobustDataLoader.buscar_dados w s = Ret (Some r))
      (filter (fun s => retornou (new_session w s)) (Registro.simbolos items)) rs.
Proof.
  revert a. induction items as [| [t l] items IH]; intros a.
  - exists []. rewrite app_nil_r. split; [reflexivity | constructor].
  - cbn. destruct (robust_para_simbolos_registros w l a) as (rs1 & -> & H1).
    cbn. destruct (IH (a ++ rs1)) as (rs2 & -> & H2).
    exists (rs1 ++ rs2). rewrite <- app_assoc. split; [reflexivity |].
    unfold Registro.simbolos. cbn. rewrite filter_app.
    apply Forall2_app; assumption.
Qed.

(** The loader of [app.py]. *)
Lemma app_corpo_ret (w : world) (t s : string) (a : list ativo) :
  tem_dados w s = true ->
  exists r, DataLoader.corpo w t s [] = Ret [r]
            /\ DataLoader.corpo w t s a = Ret (a ++ [r])
            /\ tipo r = t
            /\ simbolo r = Str.replace ".SA" "" s
            /\ frequencia_pagamento r = DataLoader._get_frequencia_pagamento t.
Proof.
  unfold tem_dados, DataLoader.corpo, mbind, outcome_bind. cbv zeta.
  destruct (info (Ticker w s)) as [i | e]; [| discriminate].
  destruct (history (Ticker w s)) as [[| b0 rest] | e]; [discriminate | | discriminate].
  intros _. eexists. split; [reflexivity |]. split; [reflexivity |]. repeat split.
Qed.

Lemma app_corpo_sem_registro (w : world) (t s : string) (a : list ativo) :
  tem_dados w s = false ->
  DataLoader.corpo w t s a = Ret a \/ exists e, DataLoader.corpo w t s a = Raise e.
Proof.
  unfold tem_dados, DataLoader.corpo, mbind, outcome_bind. cbv zeta.
  destruct (info (Ticker w s)) as [i | e]; [| right; eauto].
  destruct (history (Ticker w s)) as [[| b0 rest] | e];
    [left; reflexivity | discriminate | right; eauto].
Qed.

Lemma app_para_simbolos_registros (w : world) (t : string) (l : list string)
    (a : list ativo) :
  exists rs,
    DataLoader.para_simbolos w t l a = Ret (a ++ rs) /\
    Forall2 (fun s r => DataLoader.corpo w t s [] = Ret [r] /\ tipo r = t
                        /\ simbolo r = Str.replace ".SA" "" s
                        /\ frequencia_pagamento r = DataLoader._get_frequencia_pagamento t)
      (filter (fun s => tem_dados w s) l) rs.
Proof.
  revert a. induction l as [| s l IH]; intros a.
  - exists []. rewrite app_nil_r. split; [reflexivity | constructor].
  - rewrite AppLoopFacts.app_para_simbolos_cons.
    destruct (tem_dados w s) eqn:Hd.
    + destruct (app_corpo_ret w t s a Hd) as (r & Hr0 & -> & Hr).
      destruct (IH (a ++ [r])) as (rs & -> & HF).
      exists (r :: rs). rewrite <- app_assoc. split; [reflexivity |].
      rewrite filter_cons_True by (rewrite Hd; exact I).
      constructor; [split; assumption | assumption].
    + assert (Hrest : match DataLoader.corpo w t s a with
                      | Ret a' => DataLoader.para_simbolos w t l a'
                      | Raise _ => DataLoader.para_simbolos w t l a
                      end = DataLoader.para_simbolos w t l a).
      { destruct (app_corpo_sem_registro w t s a Hd) as [-> | [e ->]]; reflexivity. }
      rewrite Hrest. destruct (IH a) as (rs & -> & HF).
      exists rs. split; [reflexivity |].
      rewrite filter_cons_False by (rewrite Hd; exact id). exact HF.
Qed.

Lemma filter_pares (w : world) (t : string) (l : list string) :
  filter (fun ts : string * string => tem_dados w ts.2) (pair t <$> l)
  = pair t <$> filter (fun s => tem_dados w s) l.
Proof.
  induction l as [| s l IH]; [reflexivity |].
  rewrite fmap_cons, !filter_cons. cbn [snd].
  destruct (decide (tem_dados w s)); rewrite IH; reflexivity.
Qed.

Lemma app_para_tipos_registros (w : world) (items : list (string * list string))
    (a : list ativo) :
  exists rs,
    DataLoader.para_tipos w items a = Ret (a ++ rs) /\
    Forall2 (fun ts r => DataLoader.corpo w ts.1 ts.2 [] = Ret [r] /\ tipo r = ts.1
                         /\ simbolo r = Str.replace ".SA" "" ts.2
                         /\ frequencia_pagamento r
                            = DataLoader._get_frequencia_pagamento ts.1)
      (filter (fun ts => tem_dados w ts.2) (Registro.pares items)) rs.
Proof.
  revert a. induction items as [| [t l] items IH]; intros a.
  - exists []. rewrite app_nil_r. split; [reflexivity | constructor].
  - cbn. destruct (app_para_simbolos_registros w t l a) as (rs1 & -> & H1).
    cbn. destruct (IH (a ++ rs1)) as (rs2 & -> & H2).
    exists (rs1 ++ rs2). rewrite <- app_assoc. split; [reflexivity |].
    change (Registro.pares ((t, l) :: items))
      with ((pair t <$> l) ++ Registro.pares items).
    rewrite filter_app. apply Forall2_app; [| assumption].
    rewrite filter_pares. apply Forall2_fmap_l. exact H1.
Qed.

End CicloFacts.

Module SnapshotFacts.

Lemma Forall2_elem_of_right {A B} (P : A -> B -> Prop) (xs : list A) (ys : list B) (y : B) :
  Forall2 P xs ys -> y ∈ ys -> exists x, x ∈ xs /\ P x y.
Proof.
  intros H. induction H as [| x y' xs ys Hxy _ IH]; intros Hy.
  - apply elem_of_nil in Hy. destruct Hy.
  - apply elem_of_cons in Hy. destruct Hy as [-> | Hy].
    + exists x. split; [apply list_elem_of_here | exact Hxy].
    + destruct (IH Hy) as (x0 & Hx0 & HP). exists x0.
      split; [apply list_elem_of_further, Hx0 | exact HP].
Qed.

Lemma Forall2_fmap_eq {A B C} (f : A -> C) (g : B -> C) (xs : list A) (ys : list B) :
  Forall2 (fun x y => g y = f x) xs ys -> g <$> ys = f <$> xs.
Proof.
  intros H. induction H as [| x y xs ys Hxy _ IH]; [reflexivity |].
  cbn. rewrite Hxy, IH. reflexivity.
Qed.

(** The display symbols of the two registries are pairwise distinct. *)
Lemma robust_simbolos_distintos :
  NoDup (Str.replace ".SA" "" <$> Registro.simbolos RobustDataLoader.ativos_monitorados).
Proof. apply (bool_decide_unpack _). vm_compute. exact I. Qed.

Lemma app_simbolos_distintos :
  NoDup (Str.replace ".SA" "" <$> (snd <$> Registro.pares DataLoader.ativos_monitorados)).
Proof. apply (bool_decide_unpack _). vm_compute. exact I. Qed.

Lemma NoDup_fmap_filter {A B} (f : A -> B) (P : A -> Prop) `{!forall x, Decision (P x)}
    (l : list A) :
  NoDup (f <$> l) -> NoDup (f <$> filter P l).
Proof.
  intros HN. apply (sublist_NoDup _ _ HN).
  apply fmap_sublist, sublist_filter.
Qed.

End SnapshotFacts.

(** X1. Whatever the provider does, [RobustDataLoader.get_ativos_info]
    returns one record for each registry symbol whose [requests.Session()]
    did not raise, in the order of the registry; the record is the one the
    provider or the static data give for that symbol, under the symbol
    without ".SA". *)
Theorem X1_robust_snapshot_shape (w : world) :
  exists l,
    RobustDataLoader.get_ativos_info w = Ret l /\
    Forall2 (fun s r => RobustDataLoader.buscar_dados w s = Ret (Some r)
                        /\ simbolo r = Str.replace ".SA" "" s)
      (filter (fun s => retornou (new_session w s))
         (Registro.simbolos RobustDataLoader.ativos_monitorados))
      l.
Proof.
  destruct (CicloFacts.robust_para_tipos_registros w
              RobustDataLoader.ativos_monitorados []) as (rs & Hr & HF).
  exists rs. split; [exact Hr |].
  eapply Forall2_impl; [exact HF |].
  intros s r H. split; [exact H | apply (CicloFacts.buscar_dados_simbolo w s r H)].
Qed.

(** X2. The category of a record of the robust loader is the registry
    category that lists its symbol, and "OUTRO" for a symbol no category
    lists. *)
Theorem X2_robust_record_category (w : world) (s : string) (r : ativo) :
  RobustDataLoader.buscar_dados w s = Ret (Some r) ->
  (forall k v, (k, v) ∈ RobustDataLoader.ativos_monitorados -> s ∈ v -> tipo r = k) /\
  (s ∉ Registro.simbolos RobustDataLoader.ativos_monitorados -> tipo r = "OUTRO"%string).
Proof.
  intros H.
  destruct (RobustFacts.buscar_dados_total w s) as (r' & Hr' & Ht & _).
  rewrite Hr' in H. injection H as <-. rewrite Ht. clear Hr' Ht. split.
  - intros k v Hkv Hs.
    repeat (apply elem_of_cons in Hkv; destruct Hkv as [Hkv | Hkv];
            [injection Hkv as -> ->;
             repeat (apply elem_of_cons in Hs; destruct Hs as [-> | Hs];
                     [reflexivity |]);
             apply elem_of_nil in Hs; destruct Hs |]).
    apply elem_of_nil in Hkv. destruct Hkv.
  - intros Hs. unfold RobustDataLoader.ativos_monitorados. cbn [RobustDataLoader.tipo_de].
    unfold Registro.simbolos, RobustDataLoader.ativos_monitorados in Hs. cbn in Hs.
    repeat (rewrite bool_decide_eq_false_2;
            [| intros Hin; apply Hs;
               repeat (apply elem_of_cons in Hin; destruct Hin as [-> | Hin];
                       [set_solver |]);
               apply elem_of_nil in Hin; destruct Hin]).
    reflexivity.
Qed.

Lemma X2_witness :
  (forall k v, (k, v) ∈ RobustDataLoader.ativos_monitorados ->
               "TAEE11.SA"%string ∈ v -> "ACAO"%string = k) /\
  ("TAEE11.SA"%string ∉ Registro.simbolos RobustDataLoader.ativos_monitorados ->
   "ACAO"%string = "OUTRO"%string).
Proof.
  apply (X2_robust_record_category Exemplos.mundo_vazio "TAEE11.SA"
           {| simbolo := "TAEE11"; nome := "Taesa"; tipo := "ACAO";
              preco_atual := 41.20; dividend_yield := 6.5; ultimo_dividendo := 0.50;
              frequencia_pagamento := "Trimestral"; setor := "N/A";
              variacao_dia := Finite 0.0; atualizado_em := 0%Z |}).
  reflexivity.
Defined.

Module DistintosFacts.

Lemma robust_snapshot_distintos (w : world) (l : list ativo) :
  RobustDataLoader.get_ativos_info w = Ret l -> NoDup (simbolo <$> l).
Proof.
  intros H.
  destruct (CicloFacts.robust_para_tipos_registros w
              RobustDataLoader.ativos_monitorados []) as (l' & Hl & HF).
  unfold RobustDataLoader.get_ativos_info in H. rewrite Hl in H. injection H as ->.
  assert (HF' : Forall2 (fun s r => simbolo r = Str.replace ".SA" "" s)
                  (filter (fun s => retornou (new_session w s))
                     (Registro.simbolos RobustDataLoader.ativos_monitorados)) l).
  { eapply Forall2_impl; [exact HF |]. intros s r Hs.
    apply (CicloFacts.buscar_dados_simbolo w s r Hs). }
  rewrite (SnapshotFacts.Forall2_fmap_eq _ _ _ _ HF').
  apply SnapshotFacts.NoDup_fmap_filter, SnapshotFacts.robust_simbolos_distintos.
Qed.

Lemma app_snapshot_distintos (w : world) (l : list ativo) :
  DataLoader.get_ativos_info w = Ret l -> NoDup (simbolo <$> l).
Proof.
  intros H.
  destruct (CicloFacts.app_para_tipos_registros w DataLoader.ativos_monitorados [])
    as (l' & Hl & HF).
  unfold DataLoader.get_ativos_info in H. rewrite Hl in H. injection H as ->.
  assert (HF' : Forall2 (fun (ts : string * string) r =>
                           simbolo r = (Str.replace ".SA" "" ∘ snd) ts)
                  (filter (fun ts => tem_dados w ts.2)
                     (Registro.pares DataLoader.ativos_monitorados)) l).
  { eapply Forall2_impl; [exact HF |]. intros ts r (_ & _ & Hs & _). exact Hs. }
  rewrite (SnapshotFacts.Forall2_fmap_eq _ _ _ _ HF').
  apply SnapshotFacts.NoDup_fmap_filter.
  rewrite list_fmap_compose. apply SnapshotFacts.app_simbolos_distintos.
Qed.

End DistintosFacts.

(** X3. A snapshot never holds two records of one symbol, whichever of
    the two loaders built it. *)
Theorem X3_snapshot_symbols_distinct (w : world) (l : list ativo) :
  RobustDataLoader.get_ativos_info w = Ret l \/ DataLoader.get_ativos_info w = Ret l ->
  NoDup (simbolo <$> l).
Proof.
  intros [H | H].
  - apply (DistintosFacts.robust_snapshot_distintos w l H).
  - apply (DistintosFacts.app_snapshot_distintos w l H).
Qed.

Lemma X3_witness :
  NoDup (simbolo <$>
           [ {| simbolo := "VALE3"; nome := "VALE3.SA"; tipo := "ACAO";
                preco_atual := 50; dividend_yield := 0.0; ultimo_dividendo := 0.0;
                frequencia_pagamento := "Trimestral/Semestral"; setor := "N/A";
                variacao_dia := f64_map (fun x => x * 100) (f64_div (50 - 50) 50);
                atualizado_em := 0%Z |} ]).
Proof.
  apply (X3_snapshot_symbols_distinct ExemplosApp.mundo_so_vale).
  right. vm_compute. reflexivity.
Defined.

(** X4. Whatever the provider does, [DataLoader.get_ativos_info] of
    [app.py] returns one record for each registry pair (category, symbol)
    for which the provider gives the metadata and at least one price bar,
    in the order of the registry, and none for the other symbols; the
    record bears the category of the pair and the symbol without ".SA". *)
Theorem X4_app_snapshot_shape (w : world) :
  exists l,
    DataLoader.get_ativos_info w = Ret l /\
    Forall2 (fun ts r => DataLoader.corpo w ts.1 ts.2 [] = Ret [r]
                         /\ tipo r = ts.1
                         /\ simbolo r = Str.replace ".SA" "" ts.2)
      (filter (fun ts => tem_dados w ts.2) (Registro.pares DataLoader.ativos_monitorados))
      l.
Proof.
  destruct (CicloFacts.app_para_tipos_registros w DataLoader.ativos_monitorados [])
    as (l & Hl & HF).
  exists l. split; [exact Hl |].
  eapply Forall2_impl; [exact HF |]. intros ts r (H1 & H2 & H3 & _). auto.
Qed.

(** X5. In a snapshot of the loader of [app.py] the payment frequency
    follows the category: "Mensal" for FII, "Trimestral" for ETF,
    "Trimestral/Semestral" for ACAO, and no record has another category. *)
Theorem X5_app_label_follows_category (w : world) (l : list ativo) (r : ativo) :
  DataLoader.get_ativos_info w = Ret l -> r ∈ l ->
  (tipo r, frequencia_pagamento r) ∈
    [ ("FII", "Mensal"); ("ETF", "Trimestral"); ("ACAO", "Trimestral/Semestral") ]%string.
Proof.
  intros H Hr.
  destruct (CicloFacts.app_para_tipos_registros w DataLoader.ativos_monitorados [])
    as (l' & Hl & HF).
  unfold DataLoader.get_ativos_info in H. rewrite Hl in H. injection H as ->.
  destruct (SnapshotFacts.Forall2_elem_of_right _ _ _ r HF Hr)
    as ([t s] & Hts & _ & Ht & _ & Hf).
  cbn in Ht, Hf. rewrite Hf, Ht.
  apply list_elem_of_filter in Hts as [_ Hts].
  assert (Hk : t ∈ ["FII"; "ETF"; "ACAO"]%string).
  { assert (G : Forall (fun ts : string * string => ts.1 ∈ ["FII"; "ETF"; "ACAO"]%string)
                  (Registro.pares DataLoader.ativos_monitorados)).
    { apply (bool_decide_unpack _). vm_compute. exact I. }
    rewrite Forall_forall in G. apply (G (t, s) Hts). }
  clear -Hk.
  repeat (apply elem_of_cons in Hk; destruct Hk as [-> | Hk]; [set_solver |]).
  apply elem_of_nil in Hk. destruct Hk.
Qed.

Lemma X5_witness :
  ("ACAO", "Trimestral/Semestral")%string ∈
    [ ("FII", "Mensal"); ("ETF", "Trimestral"); ("ACAO", "Trimestral/Semestral") ]%string.
Proof.
  apply (X5_app_label_follows_category ExemplosApp.mundo_so_vale
           [ {| simbolo := "VALE3"; nome := "VALE3.SA"; tipo := "ACAO";
                preco_atual := 50; dividend_yield := 0.0; ultimo_dividendo := 0.0;
                frequencia_pagamento := "Trimestral/Semestral"; setor := "N/A";
                variacao_dia := f64_map (fun x => x * 100) (f64_div (50 - 50) 50);
                atualizado_em := 0%Z |} ]
           {| simbolo := "VALE3"; nome := "VALE3.SA"; tipo := "ACAO";
              preco_atual := 50; dividend_yield := 0.0; ultimo_dividendo := 0.0;
              frequencia_pagamento := "Trimestral/Semestral"; setor := "N/A";
              variacao_dia := f64_map (fun x => x * 100) (f64_div (50 - 50) 50);
              atualizado_em := 0%Z |}).
  - vm_compute. reflexivity.
  - apply list_elem_of_here.
Defined.

(** ** More on rounding *)

Module RoundFacts.
Import Num NumFacts.

Lemma rint_nonneg (q : Q) : 0 <= q -> (0 <= rint q)%Z.
Proof.
  intros Hq. unfold rint.
  assert (Hf : (0 <= Qfloor q)%Z).
  { rewrite <- (Qfloor_Z 0). apply Qfloor_resp_le. exact Hq. }
  destruct (Qcompare (q - inject_Z (Qfloor q)) (1 # 2)); [destruct (Z.even _) | |]; lia.
Qed.

Lemma round2_nonneg (q : Q) : 0 <= q -> 0 <= round2 q.
Proof.
  intros Hq. unfold round2. rewrite Qdiv_100.
  assert (H : 0 <= inject_Z (rint (q * 100))).
  { apply (Qle_trans _ (inject_Z 0)); [apply Qle_refl |].
    rewrite <- Zle_Qle. apply rint_nonneg. lra. }
  lra.
Qed.

End RoundFacts.

(** ** The numbers of a record *)

Module EstimativaFacts.

Lemma tail_app_exact {A} (n : nat) (pre l : list A) :
  length l = n -> tail n (pre ++ l) = l.
Proof.
  intros <-. unfold tail. rewrite length_app.
  replace (length pre + length l - length l)%nat with (length pre) by lia.
  apply drop_app_length.
Qed.

Lemma sum_nonneg (l : list Q) : Forall (fun d => 0 <= d) l -> 0 <= sum l.
Proof.
  induction 1 as [| d l Hd _ IH]; cbn; [apply Qle_refl |].
  change (0 <= d + sum l). lra.
Qed.

Lemma mean_nonneg (l : list Q) : Forall (fun d => 0 <= d) l -> 0 <= mean l.
Proof.
  intros H. unfold mean. apply sum_nonneg in H.
  destruct l as [| d l].
  - cbn. apply Qle_refl.
  - apply Qle_shift_div_l.
    + apply (Qlt_le_trans _ (inject_Z 1)); [reflexivity |].
      rewrite <- Zle_Qle. cbn [length]. lia.
    + rewrite Qmult_0_l. exact H.
Qed.

Lemma Forall_tail {A} (P : A -> Prop) (n : nat) (l : list A) :
  Forall P l -> Forall P (tail n l).
Proof. intros H. unfold tail. apply Forall_drop, H. Qed.

End EstimativaFacts.

(** X7. The yield estimate reads the last four dividends only: payments
    older than the last four do not change it. *)
Theorem X7_yield_reads_last_four (t : ticker) (price : Q) (older recent : list Q) :
  dividends t = Ret (older ++ recent) -> length recent = 4%nat ->
  RobustDataLoader._safe_dividend_calc t price
  = RobustDataLoader._safe_dividend_calc
      {| history := history t; info := info t; dividends := Ret recent |} price
  /\ DataLoader._estimate_dividend_yield t price
     = RobustDataLoader._safe_dividend_calc t price.
Proof.
  intros Hd Hlen. split; [| reflexivity].
  unfold RobustDataLoader._safe_dividend_calc. rewrite Hd. cbn [dividends].
  rewrite (EstimativaFacts.tail_app_exact 4 older recent Hlen).
  assert (Ht : tail 4 recent = recent).
  { apply (EstimativaFacts.tail_app_exact 4 [] recent Hlen). }
  rewrite Ht.
  rewrite !bool_decide_eq_true_2; [reflexivity | lia | rewrite length_app; lia].
Qed.

Lemma X7_witness :
  RobustDataLoader._safe_dividend_calc (Exemplos.ticker_de [] [9; 1; 2; 3; 4]) 50
  = RobustDataLoader._safe_dividend_calc
      {| history := Ret []; info := Raise "no info"; dividends := Ret [1; 2; 3; 4] |} 50
  /\ DataLoader._estimate_dividend_yield (Exemplos.ticker_de [] [9; 1; 2; 3; 4]) 50
     = RobustDataLoader._safe_dividend_calc (Exemplos.ticker_de [] [9; 1; 2; 3; 4]) 50.
Proof.
  apply (X7_yield_reads_last_four (Exemplos.ticker_de [] [9; 1; 2; 3; 4]) 50
           [9] [1; 2; 3; 4]); reflexivity.
Defined.

(** X8. The yield estimate is never negative when no dividend is: it is 0
    or a positive multiple of the mean, whatever the price. *)
Theorem X8_yield_not_negative (t : ticker) (price : Q) :
  (forall ds, dividends t = Ret ds -> Forall (fun d => 0 <= d) ds) ->
  0 <= RobustDataLoader._safe_dividend_calc t price
  /\ 0 <= round2 (RobustDataLoader._safe_dividend_calc t price).
Proof.
  intros H.
  assert (G : 0 <= RobustDataLoader._safe_dividend_calc t price).
  { unfold RobustDataLoader._safe_dividend_calc.
    destruct (dividends t) as [ds | e]; [| discriminate].
    destruct (bool_decide (0 < length ds)%nat && ltb 0 price) eqn:Hc; [| discriminate].
    apply andb_true_iff in Hc as [_ Hp]. apply YieldFacts.ltb_lt in Hp.
    pose proof (EstimativaFacts.mean_nonneg _
                  (EstimativaFacts.Forall_tail _ 4 ds (H ds eq_refl))) as Hm.
    cbv zeta.
    assert (Hq : 0 <= mean (tail 4 ds) * 12 / price).
    { apply Qle_shift_div_l; [exact Hp |]. rewrite Qmult_0_l.
      apply Qmult_le_0_compat; [exact Hm | discriminate]. }
    apply Qmult_le_0_compat; [exact Hq | discriminate]. }
  split; [exact G |].
  apply RoundFacts.round2_nonneg, G.
Qed.

Lemma X8_witness :
  0 <= RobustDataLoader._safe_dividend_calc (Exemplos.ticker_de [] [1; 2; 3; 4]) 50
  /\ 0 <= round2 (RobustDataLoader._safe_dividend_calc (Exemplos.ticker_de [] [1; 2; 3; 4]) 50).
Proof.
  apply (X8_yield_not_negative (Exemplos.ticker_de [] [1; 2; 3; 4]) 50).
  intros ds Hds. injection Hds as <-.
  repeat (constructor; [discriminate |]). constructor.
Defined.

Module StrFacts.

Lemma prefix_head (d c : Ascii.ascii) (r h : string) :
  String.prefix (String d r) (String c h) = true -> d = c.
Proof.
  cbn [String.prefix]. destruct (Ascii.ascii_dec d c); [auto | discriminate].
Qed.

Lemma prefix_single (c : Ascii.ascii) (h : string) :
  String.prefix (String c EmptyString) (String c h) = true.
Proof.
  cbn [String.prefix].
  destruct (Ascii.ascii_dec c c); [destruct h; reflexivity | congruence].
Qed.

(** No match of ".SA" starts at a character that is not a dot. *)
Lemma sem_ponto_passo (c : Ascii.ascii) (b : string) :
  Str.contains "." (String c b) = false ->
  (forall h, String.prefix ".SA" (String c h) = false) /\ Str.contains "." b = false.
Proof.
  cbn [Str.contains]. intros H. apply orb_false_iff in H as [H1 H2].
  split; [| exact H2]. intros h.
  destruct (String.prefix ".SA" (String c h)) eqn:E; [| reflexivity].
  apply prefix_head in E. subst c. rewrite prefix_single in H1. discriminate.
Qed.

Lemma replace_sem_ponto (b : string) :
  Str.contains "." b = false -> Str.replace ".SA" "" b = b.
Proof.
  unfold Str.replace. induction b as [| c b IH]; [reflexivity |].
  intros H. apply sem_ponto_passo in H as [Hp H].
  cbn [Str.replace_from]. rewrite Hp, (IH H). reflexivity.
Qed.

Lemma replace_sufixo (b : string) :
  Str.contains "." b = false -> Str.replace ".SA" "" (b +:+ ".SA") = b.
Proof.
  unfold Str.replace. induction b as [| c b IH]; [reflexivity |].
  intros H. apply sem_ponto_passo in H as [Hp H].
  change (String c b +:+ ".SA") with (String c (b +:+ ".SA")).
  cbn [Str.replace_from]. rewrite Hp, (IH H). reflexivity.
Qed.

End StrFacts.

(** X10. A record carries its symbol with every ".SA" taken out: for a
    ticker without a dot, the record fetched for the ticker followed by
    ".SA" carries the ticker alone, and the record fetched for the bare
    ticker carries it unchanged. *)
Theorem X10_display_symbol_drops_suffix (w : world) (s : string) (r : ativo) :
  RobustDataLoader.buscar_dados w s = Ret (Some r) ->
  simbolo r = Str.replace ".SA" "" s /\
  (forall b, Str.contains "." b = false -> s = b +:+ ".SA" \/ s = b -> simbolo r = b).
Proof.
  intros H. rewrite (CicloFacts.buscar_dados_simbolo w _ r H).
  split; [reflexivity |]. intros b Hb [-> | ->].
  - apply StrFacts.replace_sufixo, Hb.
  - apply StrFacts.replace_sem_ponto, Hb.
Qed.

Lemma X10_witness :
  "XPTO3"%string = Str.replace ".SA" "" "XPTO3.SA" /\
  (forall b, Str.contains "." b = false ->
             "XPTO3.SA"%string = b +:+ ".SA" \/ "XPTO3.SA"%string = b ->
             "XPTO3"%string = b).
Proof.
  apply (X10_display_symbol_drops_suffix Exemplos.mundo_vazio "XPTO3.SA"
           {| simbolo := "XPTO3"; nome := "XPTO3.SA"; tipo := "OUTRO";
              preco_atual := 10.0; dividend_yield := 6.5; ultimo_dividendo := 0.50;
              frequencia_pagamento := "Trimestral/Semestral"; setor := "N/A";
              variacao_dia := Finite 0.0; atualizado_em := 0%Z |}).
  reflexivity.
Defined.

(** ** The content of the store *)

Module TabelaFacts.
Import Database Tabela.

Lemma filter_todos {A} (P : A -> Prop) `{!forall x, Decision (P x)} (l : list A) :
  (forall x, x ∈ l -> P x) -> filter P l = l.
Proof.
  induction l as [| x l IH]; intros HP; [reflexivity |].
  rewrite filter_cons_True by (apply HP, list_elem_of_here).
  f_equal. apply IH. intros y Hy. apply HP, list_elem_of_further, Hy.
Qed.

Lemma filter_nenhum {A} (P : A -> Prop) `{!forall x, Decision (P x)} (l : list A) :
  (forall x, x ∈ l -> ~ P x) -> filter P l = [].
Proof.
  induction l as [| x l IH]; intros HP; [reflexivity |].
  rewrite filter_cons_False by (apply HP, list_elem_of_here).
  apply IH. intros y Hy. apply HP, list_elem_of_further, Hy.
Qed.

Lemma fmap_filter_dados (P : string -> Prop) `{!forall s, Decision (P s)} (t : list linha) :
  dados <$> filter (fun l => P (simbolo (dados l))) t
  = filter (fun b => P (simbolo b)) (dados <$> t).
Proof.
  induction t as [| l t IH]; [reflexivity |].
  rewrite fmap_cons, !filter_cons. cbn.
  destruct (decide (P (simbolo (dados l)))); rewrite <- IH; reflexivity.
Qed.

Lemma registros_insert (d : db) (a : ativo) :
  registros (insert_or_replace d a) = passo (registros d) a.
Proof.
  unfold registros, insert_or_replace, passo. cbn [ativos].
  rewrite fmap_app.
  pose proof (fmap_filter_dados (fun s => s ≠ simbolo a) (ativos d)) as E.
  cbv beta in E. rewrite E. reflexivity.
Qed.

Lemma registros_salvar (lista : list ativo) (d : db) :
  registros (salvar_ativos d lista) = foldl passo (registros d) lista.
Proof.
  revert d. induction lista as [| a lista IH]; intros d; [reflexivity |].
  cbn. change (foldl insert_or_replace (insert_or_replace d a) lista)
         with (salvar_ativos (insert_or_replace d a) lista).
  rewrite IH, registros_insert. reflexivity.
Qed.

Lemma filter_fora_cons (a : ativo) (lista acc : list ativo) :
  filter (fun b => simbolo b ∉ simbolo <$> lista) (filter (fun b => simbolo b ≠ simbolo a) acc)
  = filter (fun b => simbolo b ∉ simbolo <$> (a :: lista)) acc.
Proof.
  rewrite list_filter_filter. apply list_filter_iff.
  intros b. rewrite fmap_cons, not_elem_of_cons. tauto.
Qed.

(** A fold of [passo] keeps the records of the start whose symbol the list
    does not bear, and puts after them what the list alone leaves. *)
Lemma foldl_passo (lista acc : list ativo) :
  foldl passo acc lista
  = filter (fun b => simbolo b ∉ simbolo <$> lista) acc ++ ultimos lista.
Proof.
  unfold ultimos.
  revert acc. induction lista as [| a lista IH]; intros acc.
  - cbn. rewrite app_nil_r. symmetry. apply filter_todos. intros b _ Hb.
    apply elem_of_nil in Hb. exact Hb.
  - cbn [foldl]. rewrite (IH (passo acc a)), (IH (passo [] a)).
    unfold passo at 1 3. rewrite !filter_app, filter_nil, app_nil_l.
    rewrite filter_fora_cons, <- app_assoc. reflexivity.
Qed.

Lemma ultimos_simbolos (lista : list ativo) (b : ativo) :
  b ∈ ultimos lista -> b ∈ lista.
Proof.
  unfold ultimos.
  assert (G : forall acc, b ∈ foldl passo acc lista -> b ∈ acc \/ b ∈ lista).
  { induction lista as [| a lista IH]; intros acc H; [left; exact H |].
    cbn in H. apply IH in H as [H | H].
    - unfold passo in H. apply elem_of_app in H as [H | H].
      + left. apply list_elem_of_filter in H. apply H.
      + apply list_elem_of_singleton in H. subst. right. apply list_elem_of_here.
    - right. apply list_elem_of_further, H. }
  intros H. apply G in H as [H | H]; [apply elem_of_nil in H; destruct H | exact H].
Qed.

(** A list without a repeated symbol is kept whole, in its order. *)
Lemma ultimos_distintos (lista : list ativo) :
  NoDup (simbolo <$> lista) -> ultimos lista = lista.
Proof.
  unfold ultimos.
  assert (G : forall acc, NoDup (simbolo <$> (acc ++ lista)) ->
                          foldl passo acc lista = acc ++ lista).
  { induction lista as [| a lista IH]; intros acc H; [cbn; rewrite app_nil_r; reflexivity |].
    cbn [foldl]. assert (Hp : passo acc a = acc ++ [a]).
    { unfold passo. f_equal. apply filter_todos. intros b Hb Heq.
      rewrite fmap_app, fmap_cons in H. apply NoDup_app in H as (_ & H & _).
      apply (H (simbolo b)).
      - apply list_elem_of_fmap. exists b. split; [reflexivity | exact Hb].
      - rewrite Heq. apply list_elem_of_here. }
    rewrite Hp, IH; rewrite <- app_assoc; [reflexivity | exact H]. }
  intros H. apply (G [] H).
Qed.

Lemma filter_fora_ultimos (lista : list ativo) :
  filter (fun b => simbolo b ∉ simbolo <$> lista) (ultimos lista) = [].
Proof.
  apply filter_nenhum. intros b Hb Hn. apply Hn.
  apply list_elem_of_fmap. exists b. split; [reflexivity | apply ultimos_simbolos, Hb].
Qed.

Lemma registros_salvar_distintos (d : db) (lista : list ativo) :
  NoDup (simbolo <$> lista) ->
  registros (salvar_ativos d lista)
  = filter (fun b => simbolo b ∉ simbolo <$> lista) (registros d) ++ lista.
Proof.
  intros H. rewrite registros_salvar, foldl_passo, (ultimos_distintos lista H).
  reflexivity.
Qed.

End TabelaFacts.

(** X11. After a save of a list without a repeated symbol, the table
    holds the records it held for the other symbols, in their order,
    followed by the records of the list, in the order of the list. *)
Theorem X11_table_after_save (d : Database.db) (lista : list ativo) :
  NoDup (simbolo <$> lista) ->
  Tabela.registros (Database.salvar_ativos d lista)
  = filter (fun b => simbolo b ∉ simbolo <$> lista) (Tabela.registros d) ++ lista.
Proof. apply TabelaFacts.registros_salvar_distintos. Qed.

Lemma X11_witness :
  Tabela.registros
    (Database.salvar_ativos Exemplos.loja [Exemplos.registro "PETR4" 38.00 6.0])
  = filter (fun b => simbolo b ∉ simbolo <$> [Exemplos.registro "PETR4" 38.00 6.0])
      (Tabela.registros Exemplos.loja)
    ++ [Exemplos.registro "PETR4" 38.00 6.0].
Proof.
  apply (X11_table_after_save Exemplos.loja [Exemplos.registro "PETR4" 38.00 6.0]).
  apply (bool_decide_unpack _). vm_compute. exact I.
Defined.

(** X12. Saving a list a second time changes no stored record and no
    order: the table holds the same records after the second save as
    after the first (the rows of the list get new ids). *)
Theorem X12_save_twice_same_records (d : Database.db) (lista : list ativo) :
  Tabela.registros (Database.salvar_ativos (Database.salvar_ativos d lista) lista)
  = Tabela.registros (Database.salvar_ativos d lista).
Proof.
  rewrite (TabelaFacts.registros_salvar lista (Database.salvar_ativos d lista)).
  rewrite (TabelaFacts.registros_salvar lista d).
  rewrite (TabelaFacts.foldl_passo lista (foldl _ _ _)).
  rewrite (TabelaFacts.foldl_passo lista (Tabela.registros d)).
  rewrite filter_app, TabelaFacts.filter_fora_ultimos, app_nil_r.
  rewrite list_filter_filter. f_equal. apply list_filter_iff. intros b. tauto.
Qed.

Module InvarianteFacts.
Import Database Tabela.

Lemma ids_insert (d : db) (a : ativo) :
  ids (insert_or_replace d a)
  = (id <$> filter (fun l => simbolo (dados l) ≠ simbolo a) (ativos d))
    ++ [sequencia (insert_or_replace d a)].
Proof.
  unfold ids, insert_or_replace. cbn [ativos sequencia]. rewrite fmap_app. reflexivity.
Qed.

Lemma sequencia_insert (d : db) (a : ativo) :
  (sequencia d < sequencia (insert_or_replace d a))%Z.
Proof. unfold insert_or_replace. cbn [sequencia]. lia. Qed.

Lemma sequencia_salvar (lista : list ativo) (d : db) :
  (sequencia d <= sequencia (salvar_ativos d lista))%Z.
Proof.
  revert d. induction lista as [| a lista IH]; intros d; [cbn; lia |].
  change (salvar_ativos d (a :: lista)) with (salvar_ativos (insert_or_replace d a) lista).
  pose proof (sequencia_insert d a). pose proof (IH (insert_or_replace d a)). lia.
Qed.

Lemma bem_formada_insert (d : db) (a : ativo) :
  bem_formada d -> bem_formada (insert_or_replace d a).
Proof.
  intros (Hn & Hs & Hb). unfold bem_formada.
  assert (Hsub : Forall (fun i => (i <= sequencia d)%Z)
                   (id <$> filter (fun l => simbolo (dados l) ≠ simbolo a) (ativos d))).
  { rewrite Forall_forall in *. intros i Hi.
    apply list_elem_of_fmap in Hi as (l & -> & Hl).
    apply list_elem_of_filter in Hl as [_ Hl]. apply Hb.
    apply list_elem_of_fmap. exists l. split; [reflexivity | exact Hl]. }
  pose proof (sequencia_insert d a) as Hlt.
  split; [| split].
  - rewrite TabelaFacts.registros_insert. unfold passo.
    rewrite fmap_app. apply NoDup_app. split; [| split].
    + apply (sublist_NoDup _ _ Hn). apply fmap_sublist, sublist_filter.
    + intros s Hs1 Hs2. apply list_elem_of_fmap in Hs1 as (b & -> & Hb1).
      apply list_elem_of_filter in Hb1 as [Hne _].
      apply list_elem_of_singleton in Hs2. contradiction.
    + apply NoDup_singleton.
  - rewrite ids_insert. apply StronglySorted_app; split; [| split].
    + intros i j Hi Hj. apply list_elem_of_singleton in Hj. subst j.
      rewrite Forall_forall in Hsub. specialize (Hsub i Hi). lia.
    + unfold ids in Hs. clear -Hs. induction (ativos d) as [| l t IH]; [constructor |].
      rewrite fmap_cons in Hs. apply StronglySorted_inv in Hs as [Hs Hl].
      rewrite filter_cons. destruct (decide _); [| apply IH, Hs].
      rewrite fmap_cons. constructor; [apply IH, Hs |].
      rewrite Forall_forall in *. intros i Hi.
      apply list_elem_of_fmap in Hi as (l' & -> & Hl').
      apply list_elem_of_filter in Hl' as [_ Hl']. apply Hl.
      apply list_elem_of_fmap. exists l'. split; [reflexivity | exact Hl'].
    + repeat constructor.
  - rewrite ids_insert. apply Forall_app. split.
    + eapply Forall_impl; [exact Hsub |]. intros i Hi. cbv beta in Hi. lia.
    + constructor; [lia | constructor].
Qed.

Lemma bem_formada_salvar (d : db) (lista : list ativo) :
  bem_formada d -> bem_formada (salvar_ativos d lista).
Proof.
  revert d. induction lista as [| a lista IH]; intros d H; [exact H |].
  cbn. apply IH, bem_formada_insert, H.
Qed.

End InvarianteFacts.

(** X13. The store keeps its table well formed: no symbol twice, ids
    growing along the table, none above the counter.  The fresh store is
    well formed and a save of any list keeps a well-formed store so. *)
Theorem X13_table_stays_well_formed :
  Tabela.bem_formada Database._init_db /\
  (forall (d : Database.db) (lista : list ativo),
     Tabela.bem_formada d -> Tabela.bem_formada (Database.salvar_ativos d lista)).
Proof.
  split.
  - repeat split; constructor.
  - apply InvarianteFacts.bem_formada_salvar.
Qed.

Lemma X13_witness :
  Tabela.bem_formada
    (Database.salvar_ativos Database._init_db
       [Exemplos.registro "VALE3" 68.90 7.1; Exemplos.registro "VALE3" 70.00 7.0]).
Proof.
  apply (proj2 X13_table_stays_well_formed Database._init_db).
  apply (proj1 X13_table_stays_well_formed).
Defined.

(** X14. A row written by a save gets an id above the counter the store
    had before the save, also when it replaces a row: no id is used twice.
    The counter never goes down. *)
Theorem X14_saved_rows_get_fresh_ids (d : Database.db) (lista : list ativo)
    (l : Database.linha) :
  l ∈ Database.ativos (Database.salvar_ativos d lista) ->
  simbolo (Database.dados l) ∈ simbolo <$> lista ->
  (Database.sequencia d < Database.id l
   <= Database.sequencia (Database.salvar_ativos d lista))%Z.
Proof.
  revert d. induction lista as [| a lista IH]; intros d Hl Hs.
  - apply elem_of_nil in Hs. destruct Hs.
  - cbn in Hl.
    change (foldl Database.insert_or_replace (Database.insert_or_replace d a) lista)
      with (Database.salvar_ativos (Database.insert_or_replace d a) lista) in Hl.
    change (Database.salvar_ativos d (a :: lista))
      with (Database.salvar_ativos (Database.insert_or_replace d a) lista).
    pose proof (InvarianteFacts.sequencia_insert d a) as Hlt.
    destruct (decide (simbolo (Database.dados l) ∈ simbolo <$> lista)) as [Hin | Hout].
    + specialize (IH _ Hl Hin). lia.
    + assert (Hf : l ∈ filter (fun x => simbolo (Database.dados x) ∉ simbolo <$> lista)
                         (Database.ativos
                            (Database.salvar_ativos (Database.insert_or_replace d a) lista)))
        by (apply list_elem_of_filter; split; assumption).
      rewrite DatabaseFacts.salvar_ativos_frame in Hf.
      apply list_elem_of_filter in Hf as [_ Hf].
      rewrite fmap_cons in Hs. apply elem_of_cons in Hs as [Hs | Hs]; [| contradiction].
      assert (Hrow : l ∈ Database.linhas_de (simbolo a) (Database.insert_or_replace d a))
        by (apply list_elem_of_filter; split; assumption).
      rewrite DatabaseFacts.linhas_de_insert_eq in Hrow.
      apply list_elem_of_singleton in Hrow. subst l.
      pose proof (InvarianteFacts.sequencia_salvar lista (Database.insert_or_replace d a)) as Hm.
      cbn [Database.id].
      assert (Hseq : Database.sequencia (Database.insert_or_replace d a)
                     = (Database.sequencia d `max` Database.maior_id (Database.ativos d) + 1)%Z)
        by reflexivity.
      lia.
Qed.

Lemma X14_witness :
  (Database.sequencia Exemplos.loja < 3
   <= Database.sequencia
        (Database.salvar_ativos Exemplos.loja [Exemplos.registro "PETR4" 38.00 6.0]))%Z.
Proof.
  apply (X14_saved_rows_get_fresh_ids Exemplos.loja [Exemplos.registro "PETR4" 38.00 6.0]
           {| Database.id := 3; Database.dados := Exemplos.registro "PETR4" 38.00 6.0 |}).
  - vm_compute. apply list_elem_of_further, list_elem_of_here.
  - vm_compute. apply list_elem_of_here.
Defined.

Module LeituraFacts.
Import Database Tabela.

Lemma dy_desc_trans : Transitive dy_desc.
Proof. intros x y z Hxy Hyz. unfold dy_desc in *. lra. Qed.

Lemma dy_desc_total : Total dy_desc.
Proof.
  intros x y. unfold dy_desc.
  destruct (Qlt_le_dec (dividend_yield (dados x)) (dividend_yield (dados y))) as [H | H].
  - right. apply Qlt_le_weak, H.
  - left. exact H.
Qed.

Lemma carregar_ativos_ordenada (d : db) : StronglySorted dy_desc (carregar_ativos d).
Proof.
  unfold carregar_ativos.
  apply (@StronglySorted_merge_sort _ dy_desc _ dy_desc_trans dy_desc_total).
Qed.

Lemma simbolos_foldl_passo (lista acc : list ativo) (s : string) :
  s ∈ simbolo <$> foldl passo acc lista <-> s ∈ simbolo <$> acc \/ s ∈ simbolo <$> lista.
Proof.
  revert acc. induction lista as [| a lista IH]; intros acc.
  - cbn. rewrite elem_of_nil. tauto.
  - cbn [foldl]. rewrite IH. unfold passo.
    rewrite fmap_app, elem_of_app, !fmap_cons, !elem_of_cons, fmap_nil, elem_of_nil.
    rewrite (list_elem_of_fmap simbolo (filter _ acc)), (list_elem_of_fmap simbolo acc).
    split.
    + intros [[(b & -> & Hb) | [-> | []]] | H].
      * apply list_elem_of_filter in Hb as [_ Hb]. left. exists b. auto.
      * right. left. reflexivity.
      * right. right. exact H.
    + intros [(b & -> & Hb) | [-> | H]].
      * destruct (decide (simbolo b = simbolo a)) as [E | E].
        -- left. right. left. exact E.
        -- left. left. exists b. split; [reflexivity |].
           apply list_elem_of_filter. split; assumption.
      * left. right. left. reflexivity.
      * right. exact H.
Qed.

End LeituraFacts.

(** X15. A read returns the rows of the table, each once, ordered by
    yield from the highest to the lowest: no row is lost or made up, and
    the first row returned has the highest yield of the table. *)
Theorem X15_read_is_sorted_permutation (d : Database.db) :
  Database.carregar_ativos d ≡ₚ Database.ativos d /\
  StronglySorted Database.dy_desc (Database.carregar_ativos d) /\
  (forall top rest l,
     Database.carregar_ativos d = top :: rest -> l ∈ Database.ativos d ->
     dividend_yield (Database.dados l) <= dividend_yield (Database.dados top)).
Proof.
  split; [apply DatabaseFacts.carregar_ativos_perm |].
  split; [apply LeituraFacts.carregar_ativos_ordenada |].
  intros top rest l Hc Hl.
  pose proof (LeituraFacts.carregar_ativos_ordenada d) as Hs.
  rewrite <- (DatabaseFacts.carregar_ativos_perm d) in Hl.
  rewrite Hc in Hs, Hl. apply StronglySorted_inv in Hs as [_ Hs].
  apply elem_of_cons in Hl as [-> | Hl]; [apply Qle_refl |].
  rewrite Forall_forall in Hs. apply (Hs l Hl).
Qed.

Lemma X15_witness :
  dividend_yield (Exemplos.registro "PETR4" 37.50 6.5)
  <= dividend_yield (Exemplos.registro "VALE3" 68.90 7.1).
Proof.
  apply (proj2 (proj2 (X15_read_is_sorted_permutation Exemplos.loja))
           {| Database.id := 2; Database.dados := Exemplos.registro "VALE3" 68.90 7.1 |}
           [ {| Database.id := 1; Database.dados := Exemplos.registro "PETR4" 37.50 6.5 |} ]
           {| Database.id := 1; Database.dados := Exemplos.registro "PETR4" 37.50 6.5 |}).
  - vm_compute. reflexivity.
  - vm_compute. apply list_elem_of_here.
Defined.

(** X16. The symbols stored after a save are the symbols stored before
    together with the symbols of the list: a save never drops a symbol. *)
Theorem X16_symbols_after_save (d : Database.db) (lista : list ativo) (s : string) :
  s ∈ simbolo <$> Tabela.registros (Database.salvar_ativos d lista)
  <-> s ∈ simbolo <$> Tabela.registros d \/ s ∈ simbolo <$> lista.
Proof.
  rewrite TabelaFacts.registros_salvar. apply LeituraFacts.simbolos_foldl_passo.
Qed.

(** X17. One cycle of [atualizar_dados] always ends: it saves the
    snapshot of the loader and returns the rows of the store ordered by
    yield.  After it the table holds the records it held for the symbols
    the snapshot lacks, followed by the snapshot; a well-formed table
    stays well formed. *)
Theorem X17_cycle_saves_and_reads (w : world) (d : Database.db) :
  exists l d' df,
    DataLoader.get_ativos_info w = Ret l /\
    App.atualizar_dados w d = Ret (d', df) /\
    Tabela.registros d'
    = filter (fun b => simbolo b ∉ simbolo <$> l) (Tabela.registros d) ++ l /\
    df ≡ₚ Database.ativos d' /\
    StronglySorted Database.dy_desc df /\
    (Tabela.bem_formada d -> Tabela.bem_formada d').
Proof.
  destruct (CicloFacts.app_para_tipos_registros w DataLoader.ativos_monitorados [])
    as (l & Hl & _).
  change (DataLoader.para_tipos w DataLoader.ativos_monitorados [])
    with (DataLoader.get_ativos_info w) in Hl.
  exists l, (Database.salvar_ativos d l),
    (Database.carregar_ativos (Database.salvar_ativos d l)).
  split; [exact Hl |]. split.
  - unfold App.atualizar_dados, mbind, outcome_bind. rewrite Hl. reflexivity.
  - split; [| split; [| split]].
    + apply TabelaFacts.registros_salvar_distintos.
      apply (DistintosFacts.app_snapshot_distintos w). exact Hl.
    + apply DatabaseFacts.carregar_ativos_perm.
    + apply LeituraFacts.carregar_ativos_ordenada.
    + apply InvarianteFacts.bem_formada_salvar.
Qed.

(** ** The metric cards *)

(** X18. Without data the four cards show "0%", "0", "0" and "0%": before
    the first cycle, with an empty store, and also when the store holds no
    record of the category picked. *)
Theorem X18_cards_without_data (fmt2 : Q -> string) :
  let vazio := {| App.dy_medio := "0%"; App.total_ativos := "0";
                  App.total_fiis := "0"; App.melhor_dy := "0%" |} in
  (forall f, App.atualizar_dashboard fmt2 None f = vazio) /\
  (forall f, App.atualizar_dashboard fmt2 (Some []) f = vazio) /\
  (forall (dados : list Database.linha) (f : string),
     f ≠ "ALL"%string ->
     (forall l, l ∈ dados -> tipo (Database.dados l) ≠ f) ->
     App.atualizar_dashboard fmt2 (Some dados) f = vazio).
Proof.
  cbv zeta. split; [reflexivity |]. split; [reflexivity |].
  intros dados f Hf Hnone.
  destruct dados as [| l0 dados]; [reflexivity |].
  unfold App.atualizar_dashboard.
  rewrite bool_decide_eq_true_2 by exact Hf.
  rewrite (TabelaFacts.filter_nenhum _ (l0 :: dados) Hnone). reflexivity.
Qed.

Lemma X18_witness :
  App.atualizar_dashboard (fun _ => "?"%string) (Some (Database.ativos Exemplos.loja)) "FII"
  = {| App.dy_medio := "0%"; App.total_ativos := "0";
       App.total_fiis := "0"; App.melhor_dy := "0%" |}.
Proof.
  apply (proj2 (proj2 (X18_cards_without_data (fun _ => "?"%string)))).
  - discriminate.
  - intros l Hl. vm_compute in Hl.
    repeat (apply elem_of_cons in Hl; destruct Hl as [-> | Hl]; [discriminate |]).
    apply elem_of_nil in Hl. destruct Hl.
Defined.
